(** * Housing affordability clustering

    A shallow embedding of the feature construction, the anomaly flags, the
    cluster-to-policy lookup ([app.py]), the derived affordability metrics and
    the imputation of the batch cleaner ([clean_data.py]), the correlation
    filter ([refine_data.py]) and the choice of the cluster count
    ([run_analysis.py]).

    Numbers.  Python's [float] values are embedded as exact rationals [Q]:
    comparisons, thresholds and the arithmetic of the formulas are kept, the
    rounding of binary64 and the special values (NaN, infinities) are not
    represented.  Equality of computed ratios is therefore [Qeq] ([==]).
    The burden ratio of the request path is embedded a second time over
    IEEE 754 binary64 ([Binary64]), where its NaN, its infinities and its
    overflow are those of the interpreter. *)

From Stdlib Require Import QArith Qminmax Qabs Lqa ZArith Ascii.
From Stdlib Require SpecFloat.
From stdpp Require Import gmap strings list fin_maps pretty sorting.

Close Scope Q_scope.

(** ** Rational comparisons as booleans *)

Definition Qltb (x y : Q) : bool := negb (Qle_bool y x).
Definition Qleb (x y : Q) : bool := Qle_bool x y.

(** ** Python values and the builtins the code calls *)

Module Py.

(** A decoded JSON value, as [request.json] hands it to the view. *)
#[local] Unset Elimination Schemes.
Inductive value : Type :=
| VNone
| VBool (b : bool)
| VInt (z : Z)
| VFloat (q : Q)
| VStr (s : string)
| VList (l : list value)
| VDict (l : list (string * value)).
#[local] Set Elimination Schemes.

Inductive exn : Type := ValueError | TypeError.

(** A computation that returns or raises. *)
Inductive result (A : Type) : Type :=
| Return (a : A)
| Raise (e : exn).
Arguments Return {A} a.
Arguments Raise {A} e.

Definition bind {A B} (k : A -> result B) (r : result A) : result B :=
  match r with
  | Return a => k a
  | Raise e => Raise e
  end.

#[global] Instance result_ret : MRet result := @Return.
#[global] Instance result_bind : MBind result := @bind.

(** [max(a, b)]: the first argument stays unless the second is greater. *)
Definition max (a b : Q) : Q := if Qltb a b then b else a.

(** [raw == ""] *)
Definition eq_empty_str (v : value) : bool :=
  match v with
  | VStr s => if decide (s = "") then true else false
  | _ => false
  end.

Definition is_None (v : value) : bool :=
  match v with VNone => true | _ => false end.

Section Builtins.
(** [float(s)] on a string and [str(x)] on a float are the interpreter's;
    they stay parameters.  [None] stands for [ValueError]. *)
Variable float_of_str : string -> option Q.
Variable str_of_float : Q -> string.

(** [float(v)] *)
Definition float (v : value) : result Q :=
  match v with
  | VBool b => Return (if b then 1%Q else 0%Q)
  | VInt z => Return (inject_Z z)
  | VFloat q => Return q
  | VStr s =>
      match float_of_str s with
      | Some q => Return q
      | None => Raise ValueError
      end
  | VNone | VList _ | VDict _ => Raise TypeError
  end.

(** [str(v)] as an f-string renders it, for the values that reach one. *)
Definition str (v : value) : string :=
  match v with
  | VNone => "None"
  | VBool true => "True"
  | VBool false => "False"
  | VInt z => pretty z
  | VFloat q => str_of_float q
  | VStr s => s
  | VList _ | VDict _ => ""
  end.
End Builtins.

End Py.

(** ** [app.py]: the feature vector of the request path *)

Module App.

Open Scope Q_scope.

(** [build_features(inc, cst, ag, beds)], the helper nested in [predict]. *)
Definition burden_of (inc cst : Q) : Q := (cst * 12) / Py.max inc 1.

Definition status_of (burden : Q) : Q :=
  if Qltb burden 0.3 then 1 else (if Qleb burden 0.5 then 2 else 3).

Definition ami_cat_of (inc : Q) : Q :=
  let ami_ratio := inc / 70000 in
  if Qltb ami_ratio 0.3 then 1
  else (if Qltb ami_ratio 0.5 then 2
        else (if Qltb ami_ratio 0.8 then 3 else 4)).

Definition build_features (inc cst ag beds : Q) : list Q * Q :=
  let burden := burden_of inc cst in
  let val_est := cst * 12 * 15 in
  let fmr_est := 1100 in
  let rooms_est := beds + 2 in
  let status := status_of burden in
  let ami_cat := ami_cat_of inc in
  let rent_own := if Qltb 65000 inc then 1 else 2 in
  let struct_type := if Qltb 65000 inc then 1 else 2 in
  let vec :=
    [ inc;          (* ZINC2 *)
      cst;          (* COSTMED *)
      val_est;      (* VALUE *)
      fmr_est;      (* FMR *)
      burden;       (* cost_burden_ratio *)
      status;       (* affordability_status *)
      ag;           (* AGE1 *)
      2;            (* PER *)
      beds;         (* BEDRMS *)
      rooms_est;    (* ROOMS *)
      struct_type;  (* FMTSTRUCTURETYPE *)
      rent_own;     (* FMTOWNRENT *)
      3;            (* REGION *)
      1;            (* METRO3 *)
      ami_cat       (* FMTINCRELAMICAT *)
    ] in
  (vec, burden).

(** *** The artifacts loaded at start-up

    [scaler.pkl] and [kmeans_model.pkl] hold scikit-learn objects; their
    [transform] and [predict] are library code. *)

(** Modelled from the spec: the Scaler of section 4.3, which is
    scikit-learn's and absent from the repository.  Per feature
    [(x - min) / (max - min)], [0] when [max = min], no clamping; a vector
    whose length differs from the fitted schema is refused. *)
Record MinMaxScaler : Type := { data_range : list (Q * Q) }.

Definition scale_feature (mm : Q * Q) (x : Q) : Q :=
  let '(lo, hi) := mm in
  if Qeq_bool hi lo then 0 else (x - lo) / (hi - lo).

Definition transform (sc : MinMaxScaler) (v : list Q) : Py.result (list Q) :=
  if Nat.eqb (length v) (length (data_range sc))
  then Py.Return (zip_with scale_feature (data_range sc) v)
  else Py.Raise Py.ValueError.

(** Modelled from the spec: the ClusterAssigner of section 4.6, which is
    scikit-learn's [KMeans.predict] and absent from the repository: the
    nearest centroid by Euclidean distance, the lowest index on a tie. *)
Record KMeans : Type := { cluster_centers_ : list (list Q) }.

Definition n_clusters (m : KMeans) : nat := length (cluster_centers_ m).

Definition sq_dist (a b : list Q) : Q :=
  foldr Qplus 0 (zip_with (fun x y => (x - y) * (x - y)) a b).

(** Index of the first minimal element, counting from [i]. *)
Fixpoint argmin_from (i : nat) (best : nat) (bestd : Q) (ds : list Q) : nat :=
  match ds with
  | [] => best
  | d :: ds' =>
      if Qltb d bestd then argmin_from (S i) i d ds'
      else argmin_from (S i) best bestd ds'
  end.

Definition argmin (ds : list Q) : nat :=
  match ds with
  | [] => O
  | d :: ds' => argmin_from 1 0 d ds'
  end.

Definition model_predict (m : KMeans) (scaled : list Q) : Z :=
  Z.of_nat (argmin (map (sq_dist scaled) (cluster_centers_ m))).

(** *** The policy table *)

Record Policy : Type := { label : string; policy : string }.

Definition cluster_policy_map : gmap Z Policy :=
  <[0%Z := {| label := "Middle-Income Stable";
              policy := "Workforce housing support, rent stabilization, first-time homebuyer assistance." |}]>
 (<[1%Z := {| label := "Low-Income Severely Burdened";
              policy := "Immediate rent subsidies, eviction prevention, emergency housing assistance." |}]>
 (<[2%Z := {| label := "High-Income Secure";
              policy := "Market-rate housing development, inclusionary zoning, cross-subsidy for affordable housing." |}]>
 (<[3%Z := {| label := "Extremely Low-Income / No Income";
              policy := "Emergency shelter, supportive housing, income verification and benefits enrollment." |}]>
  ∅))).

(** *** The response of [/api/predict] *)

Record Prediction : Type := {
  cluster : Z;
  cost_burden_ratio : Q;
  cost_burden_label : string;
  recommendation : string;
  anomaly_flag : bool;
  anomaly_reasons : list string
}.

(** One constructor per [return] of the view, with its HTTP status. *)
Inductive Response : Type :=
| ModelNotLoaded                 (* {"error": "Model not loaded"}, 500 *)
| InvalidCluster (c : Z)         (* {"error": "Invalid cluster predicted: c"}, 500 *)
| Success (body : Prediction)    (* the flat response, 200 *)
| BadRequest (e : Py.exn).       (* {"error": str(e)}, 400 *)

Definition status_code (r : Response) : Z :=
  match r with
  | ModelNotLoaded => 500
  | InvalidCluster _ => 500
  | Success _ => 200
  | BadRequest _ => 400
  end.

(** The JSON object [jsonify] receives on the successful path. *)
Definition jsonify (b : Prediction) : list (string * Py.value) :=
  [ ("cluster", Py.VInt (cluster b));
    ("cost_burden_ratio", Py.VFloat (cost_burden_ratio b));
    ("cost_burden_label", Py.VStr (cost_burden_label b));
    ("recommendation", Py.VStr (recommendation b));
    ("anomaly_flag", Py.VBool (anomaly_flag b));
    ("anomaly_reasons", Py.VList (map Py.VStr (anomaly_reasons b))) ].

Definition error_message (r : Response) : option string :=
  match r with
  | ModelNotLoaded => Some "Model not loaded"
  | InvalidCluster c => Some ("Invalid cluster predicted: " +:+ pretty c)
  | _ => None
  end.

Definition AGE_MEDIAN : Q := 35.

(** The state of the age validation: the age used, the range anomaly and the
    line printed to the log. *)
Record AgeCheck : Type := {
  final_age : Q;
  age_anomaly : bool;
  age_log : list string
}.

Section View.
Variable float_of_str : string -> option Q.
Variable str_of_float : Q -> string.

Local Abbreviation float := (Py.float float_of_str).
Local Abbreviation str := (Py.str str_of_float).

(** Step 1 of [predict], "STRICT AGE HANDLING".  Only [ValueError] is
    caught; any other exception of [float(raw_age)] leaves the block. *)
Definition validate_age (raw_age : Py.value) : Py.result AgeCheck :=
  if Py.is_None raw_age || Py.eq_empty_str raw_age then
    Py.Return {| final_age := AGE_MEDIAN; age_anomaly := false;
                 age_log := ["LOG: age_defaulted_missing"] |}
  else
    match float raw_age with
    | Py.Return parsed_age =>
        if Qltb parsed_age 18 || Qltb 110 parsed_age then
          Py.Return {| final_age := AGE_MEDIAN; age_anomaly := true;
                       age_log := ["LOG: age_out_of_range"] |}
        else
          Py.Return {| final_age := parsed_age; age_anomaly := false;
                       age_log := [] |}
    | Py.Raise Py.ValueError =>
        Py.Return {| final_age := AGE_MEDIAN; age_anomaly := false;
                     age_log := ["LOG: age_defaulted_missing"] |}
    | Py.Raise e => Py.Raise e
    end.

(** Step 5, the anomaly list. *)
Definition possible_monthly (safe_income safe_cost primary_burden : Q) : bool :=
  Qltb safe_income 6000 && Qleb 800 safe_cost && Qltb 2.0 primary_burden.

Definition anomalies_of (age_anom : bool) (raw_age : Py.value)
    (monthly : bool) : list string :=
  (if age_anom
   then ["Age " +:+ str raw_age +:+ " invalid (out of range). used median."]
   else [])
  ++ (if monthly then ["Potential monthly income entry detected."] else []).

(** Step 6, the label of the flat response, read from [primary_vec[4]]. *)
Definition burden_label (primary_vec : list Q) : string :=
  if Qltb 0.3 (nth 4 primary_vec 0) then "High" else "Affordable".

(** The locals of [predict] once step 3 has run. *)
Record Locals : Type := {
  raw_age : Py.value;
  age : AgeCheck;
  safe_income : Q;
  safe_cost : Q;
  safe_beds : Q;
  primary_vec : list Q;
  primary_burden : Q;
  primary_cluster : Z
}.

(** Steps 1 to 3: parsing, age validation, feature vector, scaling and
    cluster assignment. *)
Definition prepare (model : KMeans) (scaler : MinMaxScaler)
    (data : gmap string Py.value) : Py.result Locals :=
  income_input ← float (default (Py.VInt 50000) (data !! "income"));
  cost_input ← float (default (Py.VInt 1000) (data !! "cost"));
  bedrooms_input ← float (default (Py.VInt 3) (data !! "bedrooms"));
  let raw := default Py.VNone (data !! "age") in
  a ← validate_age raw;
  let '(vec, burden) :=
    build_features income_input cost_input (final_age a) bedrooms_input in
  primary_scaled ← transform scaler vec;
  mret {| raw_age := raw; age := a;
          safe_income := income_input; safe_cost := cost_input;
          safe_beds := bedrooms_input;
          primary_vec := vec; primary_burden := burden;
          primary_cluster := model_predict model primary_scaled |}.

(** Steps 4 to 6: policy mapping, anomaly construction, flat response. *)
Definition respond (st : Locals) : Response :=
  match cluster_policy_map !! primary_cluster st with
  | None => InvalidCluster (primary_cluster st)
  | Some mapping =>
      let anomalies :=
        anomalies_of (age_anomaly (age st)) (raw_age st)
          (possible_monthly (safe_income st) (safe_cost st) (primary_burden st)) in
      Success {|
        cluster := primary_cluster st;
        cost_burden_ratio := primary_burden st;
        cost_burden_label := burden_label (primary_vec st);
        recommendation := label mapping +:+ ": " +:+ policy mapping;
        anomaly_flag := Nat.ltb 0 (length anomalies);
        anomaly_reasons := anomalies |}
  end.

(** The body of the [try] block of [predict]. *)
Definition predict_try (model : KMeans) (scaler : MinMaxScaler)
    (data : gmap string Py.value) : Py.result Response :=
  st ← prepare model scaler data; mret (respond st).

(** [predict()]: the guard on the globals, the [try] block and its
    handler. *)
Definition predict (model : option KMeans) (scaler : option MinMaxScaler)
    (data : gmap string Py.value) : Response :=
  match model, scaler with
  | Some m, Some sc =>
      match predict_try m sc data with
      | Py.Return r => r
      | Py.Raise e => BadRequest e
      end
  | _, _ => ModelNotLoaded
  end.
End View.

End App.

(** ** [app.py]: the burden ratio on binary64 floats

    A Python [float] is an IEEE 754 binary64 number; [SpecFloat] is the
    standard library's specification of its arithmetic, with rounding to
    nearest even, signed zeros, infinities and NaN. *)

Module Binary64.

Import SpecFloat.

Definition prec : Z := 53.
Definition emax : Z := 1024.

Definition float : Type := spec_float.

(** The float nearest to [m * 2^e], and [float(z)] on an integer. *)
Definition scaled (m e : Z) : float := binary_normalize prec emax m e false.
Definition of_Z (z : Z) : float := scaled z 0.

Definition zero : float := S754_zero false.
Definition one : float := of_Z 1.
Definition nan : float := S754_nan.
Definition inf : float := S754_infinity false.

(** [x < y] and [x <= y]; both are false when an operand is NaN. *)
Definition ltb (x y : float) : bool := SFltb x y.
Definition leb (x y : float) : bool := SFleb x y.

Definition mul (x y : float) : float := SFmul prec emax x y.

(** [x / y]; [None] is the [ZeroDivisionError] that Python raises on a
    zero divisor of either sign. *)
Definition div (x y : float) : option float :=
  match y with
  | S754_zero _ => None
  | _ => Some (SFdiv prec emax x y)
  end.

(** [max(a, b)]: the first argument stays unless the second is greater,
    so a NaN in first place stays. *)
Definition max (a b : float) : float := if ltb a b then b else a.

(** [burden = (cst * 12) / max(inc, 1)] of [build_features]. *)
Definition burden_of (inc cst : float) : option float :=
  div (mul cst (of_Z 12)) (max inc one).

(** Zero, positive or NaN: the values that do not compare below zero. *)
Definition not_negative (x : float) : Prop :=
  match x with
  | S754_zero _ | S754_nan => True
  | S754_infinity s | S754_finite s _ _ => s = false
  end.

(** The rational that a finite float stands for. *)
Definition to_Q (x : float) : option Q :=
  match x with
  | S754_zero _ => Some 0%Q
  | S754_finite s m e =>
      let v := (inject_Z (Zpos m) * 2 ^ e)%Q in
      Some (if s then Qopp v else v)
  | S754_infinity _ | S754_nan => None
  end.

End Binary64.

(** ** [test_prediction.py]: the stand-alone copy of the scoring logic *)

Module TestPrediction.

Open Scope Q_scope.

Record Outcome : Type := {
  cluster : Z;
  cost_burden_ratio : Q;
  cost_burden_label : string;
  anomaly_flag : bool;
  anomaly_reasons : list string
}.

Definition label_of (burden : Q) : string :=
  if Qltb 2.0 burden then "Extreme burden"
  else if Qltb 0.5 burden then "Severely burdened"
  else if Qltb 0.3 burden then "Moderately burdened"
  else "Affordable".

Definition anomalies_of (income burden : Q) : list string :=
  (if Qltb 2.0 burden then ["Extremely high cost burden (>200%)"] else [])
  ++ (if Qleb income 6000 then ["Extremely low income (<= $6000)"] else []).

(** [predict_logic(income, cost, age, bedrooms)]; the two artifacts are
    [None] when their file is missing, and the function then returns
    [None]. *)
Definition predict_logic (model : option App.KMeans)
    (scaler : option App.MinMaxScaler) (income cost age bedrooms : Q)
    : Py.result (option Outcome) :=
  match model, scaler with
  | Some m, Some sc =>
      let burden := (cost * 12) / Py.max income 1 in
      let label := label_of burden in
      let anomalies := anomalies_of income burden in
      let anomaly_flag := Nat.ltb 0 (length anomalies) in
      let status_input :=
        if Qltb burden 0.3 then 1 else (if Qleb burden 0.5 then 2 else 3) in
      let features :=
        [income; cost; 0; 1000; burden; status_input;
         age; 2; bedrooms; 5; 1; 2; 1; 1; 4] in
      features_scaled ← App.transform sc features;
      mret (Some {| cluster := App.model_predict m features_scaled;
                    cost_burden_ratio := burden;
                    cost_burden_label := label;
                    anomaly_flag := anomaly_flag;
                    anomaly_reasons := anomalies |})
  | _, _ => mret None
  end.

End TestPrediction.

(** ** [clean_data.py]: imputation and derived affordability metrics *)

Module CleanData.

Open Scope Q_scope.

(** *** Section 3, "Create Derived Affordability Metrics", on one row

    A row of the cleaned frame maps the name of each present column to its
    number; the frame-level operations of the source are element-wise. *)

(** [Series.replace(0, 1)] *)
Definition replace_0_1 (x : Q) : Q := if Qeq_bool x 0 then 1 else x.

(** [Series.clip(upper=u)] *)
Definition clip_upper (u x : Q) : Q := if Qltb u x then u else x.

(** [np.select(conditions, choices, default)]: the first condition that
    holds picks the choice. *)
Fixpoint np_select (conditions : list bool) (choices : list Q) (dflt : Q) : Q :=
  match conditions, choices with
  | c :: cs, x :: xs => if c then x else np_select cs xs dflt
  | _, _ => dflt
  end.

Definition cost_burden_ratio_of (row : gmap string Q) : Q :=
  match row !! "COSTMED", row !! "ZINC2" with
  | Some costmed, Some zinc2 =>
      let income := replace_0_1 zinc2 in
      clip_upper 3.0 ((costmed * 12) / income)
  | _, _ => 0
  end.

Definition affordability_status_of (r : Q) : Q :=
  np_select
    [ Qltb r 0.3;
      Qleb 0.3 r && Qleb r 0.5;
      Qltb 0.5 r ]
    [1; 2; 3] 1.

Definition derive_metrics (row : gmap string Q) : gmap string Q :=
  let r := cost_burden_ratio_of row in
  <["affordability_status" := affordability_status_of r]>
    (<["cost_burden_ratio" := r]> row).

(** *** Section 1, "Impute remaining missing values", on one column *)

Inductive dtype : Type := float64 | int64 | object.

(** A column; [None] is a missing cell (NaN).  An integer column has no
    missing cell.  The cells of an [object] column are strings. *)
Inductive Series : Type :=
| FloatSeries (cells : list (option Q))
| IntSeries (cells : list Z)
| ObjectSeries (cells : list (option string)).

Definition dtype_of (col : Series) : dtype :=
  match col with
  | FloatSeries _ => float64
  | IntSeries _ => int64
  | ObjectSeries _ => object
  end.

#[global] Instance Qle_dec (x y : Q) : Decision (x <= y) :=
  match Qlt_le_dec y x with
  | left H => right (Qlt_not_le _ _ H)
  | right H => left H
  end.

Definition str_le (s1 s2 : string) : Prop := String.leb s1 s2 = true.

#[global] Instance str_le_dec (s1 s2 : string) : Decision (str_le s1 s2) :=
  decide (String.leb s1 s2 = true).

Section Columns.
Context {A : Type} (eqb : A -> A -> bool).
Context (R : relation A) `{!forall x y, Decision (R x y)}.

(** [Series.dropna()] *)
Definition dropna (cells : list (option A)) : list A := omap id cells.

(** [Series.fillna(v)] *)
Definition fillna (v : A) (cells : list (option A)) : list (option A) :=
  (fun c => match c with None => Some v | Some _ => c end) <$> cells.

Definition count (x : A) (vals : list A) : nat :=
  length (filter (fun y => eqb x y = true) vals).

Definition max_count (vals : list A) : nat :=
  foldr Nat.max O (map (fun x => count x vals) vals).

Fixpoint unique (vals : list A) : list A :=
  match vals with
  | [] => []
  | x :: rest =>
      let u := unique rest in
      if existsb (eqb x) u then u else x :: u
  end.

(** [Series.mode()]: the most frequent of the non-missing values, each
    once, in ascending order (pandas sorts the modes it returns). *)
Definition mode (cells : list (option A)) : list A :=
  let vals := dropna cells in
  merge_sort R
    (unique (filter (fun x => count x vals = max_count vals) vals)).

(** [if not col.mode().empty: col.fillna(col.mode()[0])] *)
Definition fill_mode (cells : list (option A)) : list (option A) :=
  match mode cells with
  | [] => cells
  | m0 :: _ => fillna m0 cells
  end.

(** A mode of a column: a value that no other value outnumbers. *)
Definition most_frequent (x : A) (vals : list A) : Prop :=
  x ∈ vals /\ forall y, y ∈ vals -> (count y vals <= count x vals)%nat.


End Columns.

(** [Series.median()]: the middle of the sorted non-missing values, the
    mean of the two middle ones when their number is even, NaN ([None])
    when there is none. *)
Definition median (cells : list (option Q)) : option Q :=
  let sorted := merge_sort Qle (dropna cells) in
  let n := length sorted in
  if Nat.eqb n 0 then None
  else if Nat.odd n then sorted !! (n / 2)%nat
  else
    match sorted !! (n / 2 - 1)%nat, sorted !! (n / 2)%nat with
    | Some a, Some b => Some ((a + b) / 2)
    | _, _ => None
    end.

(** [col.fillna(col.median())]; filling with NaN changes nothing. *)
Definition fill_median (cells : list (option Q)) : list (option Q) :=
  match median cells with
  | Some m => fillna m cells
  | None => cells
  end.

Section Impute.
(** The outcome of the test [df[col].dtype == np.number] on a [float64]
    column depends on the NumPy release in use; it is [False] on the
    other two dtypes. *)
Variable float64_eq_np_number : bool.

Definition dtype_eq_np_number (d : dtype) : bool :=
  match d with
  | float64 => float64_eq_np_number
  | int64 | object => false
  end.

(** The body of the imputation loop. *)
Definition impute (col : Series) : Series :=
  if dtype_eq_np_number (dtype_of col) then
    match col with
    | FloatSeries cells => FloatSeries (fill_median cells)
    | _ => col
    end
  else
    match col with
    | FloatSeries cells => FloatSeries (fill_mode Qeq_bool Qle cells)
    | IntSeries cells => IntSeries cells
    | ObjectSeries cells => ObjectSeries (fill_mode String.eqb str_le cells)
    end.
End Impute.

End CleanData.

(** ** [refine_data.py]: the correlation filter *)

Module RefineData.

Open Scope Q_scope.

Definition candidates : list string :=
  [ "ZINC2"; "COSTMED"; "VALUE"; "FMR";
    "cost_burden_ratio"; "affordability_status";
    "AGE1"; "PER"; "BEDRMS"; "ROOMS";
    "FMTSTRUCTURETYPE"; "FMTOWNRENT"; "FMTSTATUS";
    "REGION"; "METRO3"; "Locality_Label";
    "FMTINCRELAMICAT" ].

(** [selected_features], then the columns left after [drop_missing]. *)
Definition feature_columns (df_columns drop_missing : list string)
    : list string :=
  filter (fun c => c ∉ drop_missing)
    (filter (fun c => c ∈ df_columns) candidates).

(** What [DataFrame.corr()] computes for two columns without missing
    cells: Pearson's coefficient [sxy / sqrt (sxx * syy)] of the centred
    sums, NaN ([None]) when a column is constant.  The square root is kept
    out by stating it of the coefficient. *)
Definition mean (xs : list Q) : Q :=
  foldr Qplus 0 xs / inject_Z (Z.of_nat (length xs)).

Definition centred_sum (xs ys : list Q) : Q :=
  foldr Qplus 0
    (zip_with (fun x y => (x - mean xs) * (y - mean ys)) xs ys).

Definition is_pearson (xs ys : list Q) (r : option Q) : Prop :=
  match r with
  | Some q =>
      0 < centred_sum xs xs /\ 0 < centred_sum ys ys
      /\ q * q * (centred_sum xs xs * centred_sum ys ys)
         == centred_sum xs ys * centred_sum xs ys
      /\ 0 <= q * centred_sum xs ys
  | None => centred_sum xs xs == 0 \/ centred_sum ys ys == 0
  end.

Section Correlation.
(** [feature_df.corr()], by column name; [None] is NaN (a constant
    column).  The correlation itself is pandas' computation. *)
Variable corr : string -> string -> option Q.

(** [corr_matrix = feature_df.corr().abs()] *)
Definition corr_matrix (row col : string) : option Q := Qabs <$> corr row col.

(** [upper]: the entries strictly above the diagonal, NaN elsewhere. *)
Definition upper (columns : list string) (i j : nat) : option Q :=
  if Nat.ltb i j then
    match columns !! i, columns !! j with
    | Some row, Some col => corr_matrix row col
    | _, _ => None
    end
  else None.

(** [x > 0.85]; the comparison is false on NaN. *)
Definition gt_threshold (x : option Q) : bool :=
  match x with
  | Some q => Qltb 0.85 q
  | None => false
  end.

(** [any(upper[column] > 0.85)] for the column at position [j]. *)
Definition any_above (columns : list string) (j : nat) : bool :=
  existsb (fun i => gt_threshold (upper columns i j))
          (seq 0 (length columns)).

(** [to_drop], which is also the list printed to the log. *)
Definition to_drop (columns : list string) : list string :=
  omap (fun j => if any_above columns j then columns !! j else None)
       (seq 0 (length columns)).

(** [final_features = feature_df.drop(columns=to_drop)] *)
Definition final_features (columns : list string) : list string :=
  filter (fun c => c ∉ to_drop columns) columns.
End Correlation.

(** Which column the cleaner derives from which, as a coded category of a
    continuous measure ([clean_data.py], section 3). *)
Definition coded_derivative_of (derived measure : string) : bool :=
  bool_decide (derived = "affordability_status" ∧ measure = "cost_burden_ratio").

End RefineData.

(** ** [run_analysis.py]: the search for the cluster count *)

Module RunAnalysis.

Open Scope Q_scope.

(** [range(2, 11)] *)
Definition K_range : list nat := seq 2 9.

(** [np.argmax]: the index of the first occurrence of the maximum. *)
Fixpoint argmax_from (i : nat) (best : nat) (bestv : Q) (xs : list Q) : nat :=
  match xs with
  | [] => best
  | x :: xs' =>
      if Qltb bestv x then argmax_from (S i) i x xs'
      else argmax_from (S i) best bestv xs'
  end.

Definition argmax (xs : list Q) : nat :=
  match xs with
  | [] => O
  | x :: xs' => argmax_from 1 0 x xs'
  end.

Section Search.
(** The data and scikit-learn's estimators are outside the repository:
    [fit k X] is [KMeans(n_clusters=k, random_state=42, n_init=10).fit(X)],
    [sample n X] is [X.sample(n=n, random_state=42)]. *)
Context {Frame Model Labels : Type}.
Variable len : Frame -> N.
Variable sample : N -> Frame -> Frame.
Variable fit : nat -> Frame -> Model.
Variable inertia_ : Model -> Q.
Variable predict : Model -> Frame -> Labels.
Variable silhouette_score : Frame -> Labels -> Q.

Definition sample_size (X : Frame) : N := N.min 10000 (len X).

(** One turn of the loop over [K_range]: both lists grow by one. *)
Definition search_step (X X_sample : Frame) (acc : list Q * list Q) (k : nat)
    : list Q * list Q :=
  let '(inertia, sil_scores) := acc in
  let kmeans := fit k X in
  let labels := predict kmeans X_sample in
  let score := silhouette_score X_sample labels in
  (inertia ++ [inertia_ kmeans], sil_scores ++ [score]).

(** The loop: the inertia curve and the silhouette scores. *)
Definition search (X : Frame) : list Q * list Q :=
  let X_sample := sample (sample_size X) X in
  foldl (search_step X X_sample) ([], []) K_range.

(** [optimal_k = K_range[np.argmax(sil_scores)]] *)
Definition optimal_k (X : Frame) : nat :=
  let '(inertia, sil_scores) := search X in
  nth (argmax sil_scores) K_range O.

(** The silhouette score of candidate [k], as the loop computes it. *)
Definition score_of (X : Frame) (k : nat) : Q :=
  let X_sample := sample (sample_size X) X in
  silhouette_score X_sample (predict (fit k X) X_sample).

(** [run_analysis] up to the final fit: it returns before the search when
    features and metadata differ in length, and otherwise trains the final
    model with [n_clusters=optimal_k]. *)
Definition trained_k (X : Frame) (len_metadata : N) : option nat :=
  if N.eqb (len X) len_metadata then Some (optimal_k X) else None.
End Search.

End RunAnalysis.

(** ** Concrete artifacts and builtins for the worked examples *)

Module Examples.

Open Scope Q_scope.

(** A reader of plain decimal numerals ([-12], [35], [17.5]), on which it
    agrees with [float]; every other string is refused. *)
Definition digit_of (c : ascii) : option Z :=
  let n := Z.of_N (N_of_ascii c) in
  if (48 <=? n)%Z && (n <=? 57)%Z then Some (n - 48)%Z else None.

Fixpoint digits (s : string) (acc : Z) (len : nat) : option (Z * nat * string) :=
  match s with
  | String c rest =>
      match digit_of c with
      | Some d => digits rest (10 * acc + d)%Z (S len)
      | None => Some (acc, len, s)
      end
  | EmptyString => Some (acc, len, s)
  end.

Definition unsigned_of_str (s : string) : option Q :=
  match digits s 0 0 with
  | Some (ip, n, EmptyString) =>
      if Nat.eqb n 0 then None else Some (inject_Z ip)
  | Some (ip, n, String "."%char frac) =>
      match digits frac 0 0 with
      | Some (fp, m, EmptyString) =>
          if Nat.eqb (n + m) 0 then None
          else Some (inject_Z ip + inject_Z fp / inject_Z (10 ^ Z.of_nat m))
      | _ => None
      end
  | _ => None
  end.

Definition float_of_str (s : string) : option Q :=
  match s with
  | String "-"%char rest => Qopp <$> unsigned_of_str rest
  | String "+"%char rest => unsigned_of_str rest
  | _ => unsigned_of_str s
  end.

(** A printer of whole-valued floats ([140.0]); other values print as a
    fraction, which no example uses. *)
Definition str_of_float (q : Q) : string :=
  let r := Qred q in
  if Pos.eqb (Qden r) 1 then pretty (Qnum r) +:+ ".0"
  else pretty (Qnum r) +:+ "/" +:+ pretty (Zpos (Qden r)).

Definition predict := App.predict float_of_str str_of_float.
Definition validate_age := App.validate_age float_of_str.

(** A scaler fitted on a corpus with these per-feature ranges. *)
Definition scaler : App.MinMaxScaler :=
  {| App.data_range :=
       [ (0, 200000); (0, 4000); (0, 720000); (0, 2200); (0, 3); (1, 3);
         (18, 90); (1, 10); (0, 6); (1, 12); (1, 2); (1, 2); (1, 4);
         (1, 5); (1, 4) ] |}.

(** Four centroids, then a fifth one placed on very small incomes with a
    clipped burden. *)
Definition centroid (income burden : Q) : list Q :=
  [ income; 0.3; 0.1; 0.5; burden; 0.5; 0.3; 0.2; 0.5; 0.4; 1; 1; 0.6; 0; 0.5 ].

Definition model4 : App.KMeans :=
  {| App.cluster_centers_ :=
       [ centroid 0.22 0.1; centroid 0.1 0.25; centroid 0.5 0.05;
         centroid 0.03 0.6 ] |}.

Definition model5 : App.KMeans :=
  {| App.cluster_centers_ :=
       App.cluster_centers_ model4 ++ [ centroid 0.005 2.5 ] |}.

Definition request (fields : list (string * Py.value)) : gmap string Py.value :=
  list_to_map fields.

(** A cleaned frame of four households: income and monthly cost as read,
    the burden ratio and the status code as the cleaner derives them. *)
Definition households : list (gmap string Q) :=
  CleanData.derive_metrics <$>
    [ {[ "ZINC2" := 60000; "COSTMED" := 2000 ]};
      {[ "ZINC2" := 48000; "COSTMED" := 1400 ]};
      {[ "ZINC2" := 60000; "COSTMED" := 2000 ]};
      {[ "ZINC2" := 60000; "COSTMED" := 1100 ]} ].

Definition households_columns : list string :=
  [ "ZINC2"; "COSTMED"; "cost_burden_ratio"; "affordability_status" ].

Definition column (name : string) : list Q :=
  omap (fun row : gmap string Q => row !! name) households.

(** The correlations of that frame, pair by pair. *)
Definition households_pairs : list (string * string * Q) :=
  [ ("ZINC2", "COSTMED", 1 # 3);
    ("ZINC2", "cost_burden_ratio", -1 # 17);
    ("ZINC2", "affordability_status", -1 # 3);
    ("COSTMED", "cost_burden_ratio", 47 # 51);
    ("COSTMED", "affordability_status", 7 # 9);
    ("cost_burden_ratio", "affordability_status", 49 # 51) ].

Definition households_corr (a b : string) : option Q :=
  if bool_decide (a = b) then
    (if bool_decide (a ∈ households_columns) then Some 1 else None)
  else
    snd <$> head
      (filter (fun p : string * string * Q =>
                 (p.1.1 = a /\ p.1.2 = b) \/ (p.1.1 = b /\ p.1.2 = a))
              households_pairs).




(** Ten rows each: three ages missing, four medians missing. *)
Definition age_cells : list (option Q) :=
  [ Some 21; None; Some 35; Some 40; None; Some 52; Some 67; None; Some 30;
    Some 44 ].

Definition lmed_cells : list (option Q) :=
  [ None; Some 900; None; Some 1100; Some 1250; None; Some 980; None;
    Some 1020; Some 1300 ].

Definition survey : list (string * CleanData.Series) :=
  [ ("AGE1", CleanData.FloatSeries age_cells);
    ("LMED", CleanData.FloatSeries lmed_cells) ].

(** Silhouette scores by candidate [k], with a tie between 3 and 4, and an
    inertia curve. *)
Definition silhouette_table (k : nat) : Q :=
  match k with
  | 2%nat => 0.41
  | 3%nat => 0.55
  | 4%nat => 0.55
  | _ => 0.30
  end.

Definition inertia_table (k : nat) : Q := 1000 / inject_Z (Z.of_nat k).

Definition optimal_k_of (inertia : nat -> Q) : nat :=
  RunAnalysis.optimal_k (Frame := unit) (Model := nat) (Labels := nat)
    (fun _ => 25000%N) (fun _ X => X) (fun k _ => k) inertia
    (fun kmeans _ => kmeans) (fun _ labels => silhouette_table labels) tt.

End Examples.

(** ** [app.py]: the globals and the health view *)

Module Service.

(** The module-level globals [df], [model] and [scaler]; a frame is kept as
    its rows. *)
Record Globals : Type := {
  df : option (list (gmap string Py.value));
  model : option App.KMeans;
  scaler : option App.MinMaxScaler
}.

(** [health()]: the status text and the number of rows. *)
Definition health (g : Globals) : string * nat :=
  let status :=
    match df g, model g with
    | Some _, Some _ => "healthy"
    | _, _ => "degraded"
    end in
  (status, match df g with Some rows => length rows | None => O end).

Section Views.
Variable float_of_str : string -> option Q.
Variable str_of_float : Q -> string.

(** [predict()] reads the globals [model] and [scaler]. *)
Definition predict (g : Globals) (data : gmap string Py.value) : App.Response :=
  App.predict float_of_str str_of_float (model g) (scaler g) data.
End Views.

End Service.

(** ** [clean_data.py] and [refine_data.py]: the steps around the imputation *)

Module Cleaner.

Open Scope Q_scope.

(** [df.loc[df[col] < 0, col] = np.nan] on one numeric column. *)
Definition clean_negative (cells : list (option Q)) : list (option Q) :=
  (fun c => match c with
            | Some q => if Qltb q 0 then None else Some q
            | None => None
            end) <$> cells.

(** [df.isnull().mean()] on one column: the share of missing cells.  On a
    column without rows pandas yields NaN, on which the comparison below is
    false, as it is on the [0] that the division gives here. *)
Definition count_missing {A : Type} (cells : list (option A)) : nat :=
  sum_list ((fun c : option A => match c with None => 1%nat | Some _ => O end) <$> cells).

Definition isnull_mean {A : Type} (cells : list (option A)) : Q :=
  inject_Z (Z.of_nat (count_missing cells)) / inject_Z (Z.of_nat (length cells)).

Definition series_isnull_mean (col : CleanData.Series) : Q :=
  match col with
  | CleanData.FloatSeries cells => isnull_mean cells
  | CleanData.IntSeries cells => isnull_mean (Some <$> cells)
  | CleanData.ObjectSeries cells => isnull_mean cells
  end.

Definition series_cells_missing (col : CleanData.Series) : nat :=
  match col with
  | CleanData.FloatSeries cells => count_missing cells
  | CleanData.IntSeries cells => O
  | CleanData.ObjectSeries cells => count_missing cells
  end.

Definition series_length (col : CleanData.Series) : nat :=
  match col with
  | CleanData.FloatSeries cells => length cells
  | CleanData.IntSeries cells => length cells
  | CleanData.ObjectSeries cells => length cells
  end.

Definition missing_threshold : Q := 0.3.

(** [missing_counts > missing_threshold] *)
Definition too_sparse (col : CleanData.Series) : bool :=
  Qltb missing_threshold (series_isnull_mean col).

(** [cols_to_drop] and [df.drop(columns=cols_to_drop)], on a frame given as
    its named columns. *)
Definition cols_to_drop (frame : list (string * CleanData.Series)) : list string :=
  (filter (fun nc => too_sparse nc.2 = true) frame).*1.

Definition drop_sparse (frame : list (string * CleanData.Series))
    : list (string * CleanData.Series) :=
  filter (fun nc => nc.1 ∉ cols_to_drop frame) frame.

(** The drop followed by the imputation loop. *)
Definition drop_and_impute (float64_eq_np_number : bool)
    (frame : list (string * CleanData.Series)) : list (string * CleanData.Series) :=
  (fun nc => (nc.1, CleanData.impute float64_eq_np_number nc.2)) <$> drop_sparse frame.

(** [val.split(' ')[0]]: the text before the first space. *)
Fixpoint first_token (s : string) : string :=
  match s with
  | EmptyString => EmptyString
  | String c rest =>
      if Ascii.eqb c " "%char then EmptyString else String c (first_token rest)
  end.

Section Codes.
Variable float_of_str : string -> option Q.

(** [extract_code(val)]; [None] is the NaN returned on [ValueError]. *)
Definition extract_code (val : Py.value) : option Py.value :=
  match val with
  | Py.VStr s =>
      match float_of_str (first_token s) with
      | Some q => Some (Py.VFloat q)
      | None => None
      end
  | _ => Some val
  end.

(** The code of a text cell after [pd.to_numeric(..., errors='coerce')]. *)
Definition code_of (s : string) : option Q := float_of_str (first_token s).

(** The treatment of one [FMT] column of dtype [object]: extraction, then
    [if col.isnull().any(): col.fillna(col.mode()[0])].  Indexing an empty
    [mode()] with [0] raises [KeyError], which is [None] here. *)
Definition normalize_fmt (cells : list string) : option (list (option Q)) :=
  let codes := code_of <$> cells in
  if forallb (fun c : option Q => bool_decide (is_Some c)) codes then Some codes
  else
    match CleanData.mode Qeq_bool Qle codes with
    | [] => None
    | m0 :: _ => Some (CleanData.fillna m0 codes)
    end.
End Codes.

(** [df['REGION'] * 10 + df['METRO3']] *)
Definition locality_label (region metro3 : Q) : Q := region * 10 + metro3.

End Cleaner.

(** ** [run_analysis.py]: the noise count and the policy texts *)

Module Profile.

Open Scope Q_scope.

(** [len(set(dbscan_labels)) - (1 if -1 in dbscan_labels else 0)] *)
Definition n_dbscan_clusters (dbscan_labels : list Z) : Z :=
  (Z.of_nat (size (list_to_set dbscan_labels : gset Z))
   - (if bool_decide ((-1)%Z ∈ dbscan_labels) then 1 else 0))%Z.

(** The income and burden sentences of one row of the cluster profile. *)
Definition income_text (zinc2 : Q) : string :=
  if Qltb zinc2 30000 then "Low Income. "
  else if Qltb 80000 zinc2 then "High Income. "
  else "Middle Income. ".

Definition burden_text (cost_burden_ratio : Q) : string :=
  if Qltb 0.5 cost_burden_ratio then
    "Severely Burdened. POLICY: Rent subsidies, emergency assistance."
  else if Qltb 0.3 cost_burden_ratio then
    "Moderately Burdened. POLICY: Affordable housing development, zoning incentives."
  else "Affordable. POLICY: Market monitoring, maintain stability.".

Definition recommendation (cluster_id : Z) (zinc2 cost_burden_ratio : Q) : string :=
  "Cluster " +:+ pretty cluster_id +:+ ": "
  +:+ income_text zinc2 +:+ burden_text cost_burden_ratio.

(** The loop over [profile.iterrows()]; a row is the cluster id with its
    mean income and mean burden ratio. *)
Definition recommendations (profile : list (Z * (Q * Q))) : list string :=
  (fun row => recommendation row.1 row.2.1 row.2.2) <$> profile.

End Profile.

(** * Properties *)

(** ** Boolean comparisons on rationals *)

Lemma Qltb_lt (x y : Q) : Qltb x y = true <-> (x < y)%Q.
Proof.
  unfold Qltb. rewrite negb_true_iff. split.
  - intros H. apply Qnot_le_lt. intros Hle.
    apply Qle_bool_iff in Hle. congruence.
  - intros H. destruct (Qle_bool y x) eqn:E; [|reflexivity].
    apply Qle_bool_iff in E. lra.
Qed.

Lemma Qltb_ge (x y : Q) : Qltb x y = false <-> (y <= x)%Q.
Proof.
  unfold Qltb. rewrite negb_false_iff. apply Qle_bool_iff.
Qed.

Lemma Qleb_le (x y : Q) : Qleb x y = true <-> (x <= y)%Q.
Proof. apply Qle_bool_iff. Qed.

Lemma Qleb_gt (x y : Q) : Qleb x y = false <-> (y < x)%Q.
Proof.
  unfold Qleb. split.
  - intros H. apply Qnot_le_lt. intros Hle.
    apply Qle_bool_iff in Hle. congruence.
  - intros H. destruct (Qle_bool x y) eqn:E; [|reflexivity].
    apply Qle_bool_iff in E. lra.
Qed.

Lemma Qeq_bool_false (x y : Q) : Qeq_bool x y = false <-> ~ (x == y)%Q.
Proof.
  split.
  - intros H Heq. apply Qeq_bool_iff in Heq. congruence.
  - intros H. destruct (Qeq_bool x y) eqn:E; [|reflexivity].
    apply Qeq_bool_iff in E. contradiction.
Qed.

Ltac qbool :=
  repeat match goal with
  | H : Qltb _ _ = true |- _ => apply Qltb_lt in H
  | H : Qltb _ _ = false |- _ => apply Qltb_ge in H
  | H : Qleb _ _ = true |- _ => apply Qleb_le in H
  | H : Qleb _ _ = false |- _ => apply Qleb_gt in H
  | H : Qeq_bool _ _ = true |- _ => apply Qeq_bool_iff in H
  | H : Qeq_bool _ _ = false |- _ => apply Qeq_bool_false in H
  end.

Lemma Qltb_proper (x x' y y' : Q) :
  (x == x')%Q -> (y == y')%Q -> Qltb x y = Qltb x' y'.
Proof.
  intros Hx Hy. unfold Qltb. f_equal. apply Qleb_comp; assumption.
Qed.

Lemma Qleb_proper (x x' y y' : Q) :
  (x == x')%Q -> (y == y')%Q -> Qleb x y = Qleb x' y'.
Proof. intros Hx Hy. apply Qleb_comp; assumption. Qed.

(** ** The burden ratio of the request path *)

Section BurdenRatio.
Open Scope Q_scope.

Lemma py_max_ge_1 (inc : Q) : 1 <= Py.max inc 1.
Proof. unfold Py.max. destruct (Qltb inc 1) eqn:E; qbool; lra. Qed.

Lemma py_max_Qmax (a b : Q) : Py.max a b == Qmax a b.
Proof.
  unfold Py.max. destruct (Qltb a b) eqn:E; qbool.
  - symmetry. apply Q.max_r. lra.
  - symmetry. apply Q.max_l. assumption.
Qed.

Lemma py_max_above (inc : Q) : 1 <= inc -> Py.max inc 1 == inc.
Proof. intros H. unfold Py.max. destruct (Qltb inc 1) eqn:E; qbool; lra. Qed.

Lemma py_max_below (inc : Q) : inc < 1 -> Py.max inc 1 == 1.
Proof. intros H. unfold Py.max. destruct (Qltb inc 1) eqn:E; qbool; lra. Qed.

Lemma build_features_burden (inc cst ag beds : Q) :
  snd (App.build_features inc cst ag beds) = App.burden_of inc cst
  /\ nth 4 (fst (App.build_features inc cst ag beds)) 0 = App.burden_of inc cst
  /\ nth 5 (fst (App.build_features inc cst ag beds)) 0
     = App.status_of (App.burden_of inc cst).
Proof. repeat split. Qed.

(** In exact arithmetic the ratio is [cst * 12 / max(inc, 1)], with the
    divisor [inc] from 1 on and 1 below. *)
Lemma burden_of_exact (inc cst : Q) :
  App.burden_of inc cst == cst * 12 / Qmax inc 1
  /\ (1 <= inc -> App.burden_of inc cst == cst * 12 / inc)
  /\ (inc < 1 -> App.burden_of inc cst == cst * 12).
Proof.
  unfold App.burden_of. split; [|split].
  - rewrite py_max_Qmax. reflexivity.
  - intros H. rewrite (py_max_above _ H). reflexivity.
  - intros H. rewrite (py_max_below _ H). field.
Qed.
End BurdenRatio.

(** ** The burden ratio on binary64 floats *)

Section BurdenRatioBinary64.
Import SpecFloat.

Lemma SFcompare_antisym (x y : spec_float) :
  SFcompare y x = option_map CompOpp (SFcompare x y).
Proof.
  destruct x as [sx|sx| |sx mx ex], y as [sy|sy| |sy my ey]; cbn;
    try reflexivity;
    try (destruct sx; reflexivity); try (destruct sy; reflexivity);
    try (destruct sx, sy; reflexivity).
  destruct sx, sy; cbn; try reflexivity.
  - rewrite (Z.compare_antisym ey ex).
    destruct (ey ?= ex)%Z; cbn; try reflexivity.
    rewrite (Pos.compare_cont_antisym mx my Eq). cbn.
    destruct (Pos.compare_cont Eq mx my); reflexivity.
  - rewrite (Z.compare_antisym ey ex).
    destruct (ey ?= ex)%Z; cbn; try reflexivity.
    rewrite (Pos.compare_cont_antisym mx my Eq). cbn. reflexivity.
Qed.

Lemma leb_not_ltb (x y : Binary64.float) :
  Binary64.leb x y = true -> Binary64.ltb y x = false.
Proof.
  unfold Binary64.leb, Binary64.ltb, SFleb, SFltb.
  rewrite (SFcompare_antisym x y).
  destruct (SFcompare x y) as [[]|]; cbn; congruence.
Qed.

Lemma not_ltb_leb (x y : Binary64.float) :
  x <> Binary64.nan -> y <> Binary64.nan ->
  Binary64.ltb x y = false -> Binary64.leb y x = true.
Proof.
  unfold Binary64.leb, Binary64.ltb, Binary64.nan, SFleb, SFltb. intros Hx Hy.
  rewrite (SFcompare_antisym x y).
  destruct (SFcompare x y) as [[]|] eqn:E; cbn; try congruence.
  destruct x, y; cbn in E; congruence.
Qed.

(** Rounding keeps the sign it is given. *)
Lemma binary_round_aux_sign (sx : bool) (mx ex : Z) (lx : location) :
  match binary_round_aux Binary64.prec Binary64.emax sx mx ex lx with
  | S754_zero s | S754_infinity s | S754_finite s _ _ => s = sx
  | S754_nan => True
  end.
Proof.
  unfold binary_round_aux.
  destruct (shr_fexp _ _ mx ex lx) as [mrs' e'].
  destruct (shr_fexp _ _ _ e' loc_Exact) as [mrs'' e''].
  destruct (shr_m mrs''); [reflexivity| |exact I].
  destruct (e'' <=? _)%Z; reflexivity.
Qed.

Lemma leb_zero_not_negative (x : Binary64.float) :
  Binary64.leb Binary64.zero x = true -> Binary64.not_negative x.
Proof.
  unfold Binary64.leb, Binary64.zero.
  destruct x as [s|[]| |[] m e]; cbn; intros H;
    solve [exact I|reflexivity|discriminate H].
Qed.

Lemma leb_one_not_negative (x : Binary64.float) :
  Binary64.leb Binary64.one x = true -> Binary64.not_negative x.
Proof.
  unfold Binary64.leb.
  destruct x as [s|[]| |[] m e]; cbn; intros H;
    solve [exact I|reflexivity|discriminate H].
Qed.

Lemma not_negative_leb_zero (x : Binary64.float) :
  Binary64.not_negative x ->
  x = Binary64.nan \/ Binary64.leb Binary64.zero x = true.
Proof.
  unfold Binary64.leb, Binary64.zero, Binary64.nan.
  destruct x as [s|s| |s m e]; cbn; intros H; subst; auto.
Qed.

Lemma mul_not_negative (x y : Binary64.float) :
  Binary64.not_negative x -> Binary64.not_negative y ->
  Binary64.not_negative (Binary64.mul x y).
Proof.
  unfold Binary64.mul.
  destruct x as [sx|sx| |sx mx ex], y as [sy|sy| |sy my ey];
    unfold SFmul; cbv beta iota; cbn [Binary64.not_negative];
    intros Hx Hy; subst; try reflexivity; try exact I.
  pose proof (binary_round_aux_sign (xorb false false) (Z.pos (mx * my))
                (ex + ey) loc_Exact) as H.
  destruct (binary_round_aux _ _ _ _ _ _); cbn; auto.
Qed.

Lemma SFdiv_not_negative (x y : Binary64.float) :
  Binary64.not_negative x -> Binary64.not_negative y ->
  (forall s, y <> S754_zero s) ->
  Binary64.not_negative (SFdiv Binary64.prec Binary64.emax x y).
Proof.
  destruct x as [sx|sx| |sx mx ex], y as [sy|sy| |sy my ey];
    unfold SFdiv; cbv beta iota; cbn [Binary64.not_negative];
    intros Hx Hy Hnz; subst; try reflexivity; try exact I;
    try (exfalso; eapply Hnz; reflexivity).
  destruct (SFdiv_core_binary _ _ _ _ _ _) as [[mz ez] lz].
  pose proof (binary_round_aux_sign (xorb false false) mz ez lz) as H.
  destruct (binary_round_aux _ _ _ _ _ _); cbn; auto.
Qed.

(** The divisor [max(inc, 1)]. *)
Lemma max_one_cases (inc : Binary64.float) :
  (Binary64.leb Binary64.one inc = true -> Binary64.max inc Binary64.one = inc)
  /\ (Binary64.ltb inc Binary64.one = true
      -> Binary64.max inc Binary64.one = Binary64.one)
  /\ (inc = Binary64.nan -> Binary64.max inc Binary64.one = Binary64.nan)
  /\ (inc <> Binary64.nan
      -> Binary64.leb Binary64.one (Binary64.max inc Binary64.one) = true)
  /\ (forall s, Binary64.max inc Binary64.one <> S754_zero s).
Proof.
  unfold Binary64.max. split; [|split; [|split; [|split]]].
  - intros H. rewrite (leb_not_ltb _ _ H). reflexivity.
  - intros ->. reflexivity.
  - intros ->. reflexivity.
  - intros Hnan. destruct (Binary64.ltb inc Binary64.one) eqn:E; [reflexivity|].
    apply not_ltb_leb; [assumption|discriminate|assumption].
  - intros s. destruct (Binary64.ltb inc Binary64.one) eqn:E; [discriminate|].
    intros ->. discriminate E.
Qed.

(** C2, as amended.  On binary64 floats, for every income and monthly cost:
    the ratio that [build_features] computes is the rounded product
    [cst * 12] divided by [max(inc, 1)] and the division never raises, the
    divisor being never zero.  The divisor is the income when the income is
    at least 1, so the ratio is then [cst * 12 / inc]; it is 1 when the
    income is below 1; it is at least 1 unless the income is NaN.  When the
    income is NaN the ratio is NaN.  When the monthly cost is at least zero
    the ratio is NaN or at least zero. *)
Theorem C2_burden_ratio (inc cst : Binary64.float) :
  let d := Binary64.max inc Binary64.one in
  Binary64.burden_of inc cst
    = Some (SFdiv Binary64.prec Binary64.emax
              (Binary64.mul cst (Binary64.of_Z 12)) d)
  /\ (forall s, d <> S754_zero s)
  /\ (Binary64.leb Binary64.one inc = true ->
      d = inc
      /\ Binary64.burden_of inc cst
         = Binary64.div (Binary64.mul cst (Binary64.of_Z 12)) inc)
  /\ (Binary64.ltb inc Binary64.one = true ->
      d = Binary64.one
      /\ Binary64.burden_of inc cst
         = Binary64.div (Binary64.mul cst (Binary64.of_Z 12)) Binary64.one)
  /\ (inc <> Binary64.nan -> Binary64.leb Binary64.one d = true)
  /\ (inc = Binary64.nan -> Binary64.burden_of inc cst = Some Binary64.nan)
  /\ (Binary64.leb Binary64.zero cst = true ->
      exists b, Binary64.burden_of inc cst = Some b
                /\ (b = Binary64.nan \/ Binary64.leb Binary64.zero b = true)).
Proof.
  intros d. destruct (max_one_cases inc) as (Hge & Hlt & Hnan & Hone & Hnz).
  fold d in Hge, Hlt, Hnan, Hone, Hnz.
  assert (Hb : Binary64.burden_of inc cst
               = Some (SFdiv Binary64.prec Binary64.emax
                         (Binary64.mul cst (Binary64.of_Z 12)) d)).
  { unfold Binary64.burden_of, Binary64.div. fold d.
    destruct d; try reflexivity. exfalso. eapply Hnz. reflexivity. }
  split; [exact Hb|]. split; [exact Hnz|]. split; [|split; [|split; [|split]]].
  - intros H. split; [exact (Hge H)|].
    unfold Binary64.burden_of. fold d. rewrite (Hge H). reflexivity.
  - intros H. split; [exact (Hlt H)|].
    unfold Binary64.burden_of. fold d. rewrite (Hlt H). reflexivity.
  - exact Hone.
  - intros Hinc. rewrite Hb, (Hnan Hinc).
    destruct (Binary64.mul cst (Binary64.of_Z 12)); reflexivity.
  - intros Hcst. eexists. split; [exact Hb|].
    apply not_negative_leb_zero. apply SFdiv_not_negative.
    + apply mul_not_negative; [apply leb_zero_not_negative; assumption|reflexivity].
    + assert (Hinc : inc = Binary64.nan \/ inc <> Binary64.nan)
        by (destruct inc; [right|right|left|right]; solve [reflexivity|discriminate]).
      destruct Hinc as [Hinc|Hinc].
      * rewrite (Hnan Hinc). exact I.
      * apply leb_one_not_negative. exact (Hone Hinc).
    + exact Hnz.
Qed.

Lemma C2_burden_ratio_witness :
  Binary64.burden_of (Binary64.of_Z 45000) (Binary64.of_Z 1200)
    = Binary64.div (Binary64.mul (Binary64.of_Z 1200) (Binary64.of_Z 12))
                   (Binary64.of_Z 45000)
  /\ Binary64.burden_of (Binary64.scaled 1 (-1)) (Binary64.of_Z 1000)
    = Binary64.div (Binary64.mul (Binary64.of_Z 1000) (Binary64.of_Z 12))
                   Binary64.one
  /\ exists b,
       Binary64.burden_of (Binary64.of_Z 45000) (Binary64.of_Z 1200) = Some b
       /\ (b = Binary64.nan \/ Binary64.leb Binary64.zero b = true).
Proof.
  pose proof (C2_burden_ratio (Binary64.of_Z 45000) (Binary64.of_Z 1200))
    as (_ & _ & Habove & _ & _ & _ & Hpos).
  pose proof (C2_burden_ratio (Binary64.scaled 1 (-1)) (Binary64.of_Z 1000))
    as (_ & _ & _ & Hbelow & _).
  split; [|split].
  - apply Habove. vm_compute. reflexivity.
  - apply Hbelow. vm_compute. reflexivity.
  - apply Hpos. vm_compute. reflexivity.
Defined.

(** C2, as stated, fails in four ways.  For the income 0.5, which is
    positive, the ratio is [cost * 12 = 12000] and not
    [cost * 12 / income = 24000].  For the monthly cost -100 the ratio is
    below zero.  For the monthly cost 1e308 the product [cost * 12]
    overflows and the ratio is infinite.  For the income NaN, which
    [float("nan")] yields, the ratio is NaN, neither finite nor at least
    zero. *)
Lemma C2_counterexample :
  (Binary64.burden_of (Binary64.scaled 1 (-1)) (Binary64.of_Z 1000)
     = Some (Binary64.of_Z 12000)
   /\ Binary64.div (Binary64.mul (Binary64.of_Z 1000) (Binary64.of_Z 12))
                   (Binary64.scaled 1 (-1))
     = Some (Binary64.of_Z 24000))
  /\ (exists b,
        Binary64.burden_of (Binary64.of_Z 50000) (Binary64.of_Z (-100)) = Some b
        /\ Binary64.ltb b Binary64.zero = true)
  /\ Binary64.burden_of (Binary64.of_Z 50000) (Binary64.of_Z (10 ^ 308))
     = Some Binary64.inf
  /\ (Binary64.burden_of Binary64.nan (Binary64.of_Z 1000) = Some Binary64.nan
      /\ Binary64.leb Binary64.zero Binary64.nan = false).
Proof.
  split; [split; vm_compute; reflexivity|].
  split; [eexists; split; vm_compute; reflexivity|].
  split; [vm_compute; reflexivity|].
  split; vm_compute; reflexivity.
Qed.

(** Where no rounding occurs the two embeddings give the same number: the
    float computed for the income 0.5 and the cost 1000 stands for the
    rational of the exact model. *)
Example burden_models_agree :
  exists b,
    Binary64.burden_of (Binary64.scaled 1 (-1)) (Binary64.of_Z 1000) = Some b
    /\ exists q, Binary64.to_Q b = Some q
                 /\ (q == App.burden_of (1 # 2) 1000)%Q.
Proof.
  eexists. split; [vm_compute; reflexivity|].
  eexists. split; [reflexivity|]. vm_compute. reflexivity.
Qed.
End BurdenRatioBinary64.


(** ** Training path against request path *)

Section TrainingVersusInference.
Open Scope Q_scope.

Lemma status_of_proper (r r' : Q) : r == r' -> App.status_of r = App.status_of r'.
Proof.
  intros H. unfold App.status_of.
  rewrite (Qltb_proper r r' 0.3 0.3 H (Qeq_refl _)).
  rewrite (Qleb_proper r r' 0.5 0.5 H (Qeq_refl _)).
  reflexivity.
Qed.

(** The two status rules are the same function of the ratio. *)
Lemma affordability_status_eq (r : Q) :
  CleanData.affordability_status_of r = App.status_of r.
Proof.
  unfold CleanData.affordability_status_of, App.status_of. cbn [CleanData.np_select].
  destruct (Qltb r 0.3) eqn:E1; [reflexivity|].
  destruct (Qleb r 0.5) eqn:E2.
  - replace (Qleb 0.3 r) with true; [reflexivity|].
    symmetry. apply Qleb_le. qbool. assumption.
  - rewrite andb_false_r.
    replace (Qltb 0.5 r) with true; [reflexivity|].
    symmetry. apply Qltb_lt. qbool. assumption.
Qed.

Lemma derive_metrics_lookup (row : gmap string Q) :
  CleanData.derive_metrics row !! "cost_burden_ratio"
    = Some (CleanData.cost_burden_ratio_of row)
  /\ CleanData.derive_metrics row !! "affordability_status"
    = Some (CleanData.affordability_status_of (CleanData.cost_burden_ratio_of row)).
Proof.
  unfold CleanData.derive_metrics. split.
  - rewrite lookup_insert_ne by discriminate. apply lookup_insert_eq.
  - apply lookup_insert_eq.
Qed.

(** C1, as amended.  The training corpus and the request path compute the
    burden ratio by two separate pieces of code.  On a row whose income is 0
    or at least 1 and whose unclipped ratio is at most 3, the ratio and the
    status code stored by the cleaner equal those of the feature vector of
    the request path. *)
Theorem C1_paths_agree_in_range (row : gmap string Q) (inc cst ag beds : Q) :
  row !! "ZINC2" = Some inc ->
  row !! "COSTMED" = Some cst ->
  inc == 0 \/ 1 <= inc ->
  cst * 12 / Py.max inc 1 <= 3 ->
  exists r s,
    CleanData.derive_metrics row !! "cost_burden_ratio" = Some r
    /\ CleanData.derive_metrics row !! "affordability_status" = Some s
    /\ r == snd (App.build_features inc cst ag beds)
    /\ s = nth 5 (fst (App.build_features inc cst ag beds)) 0.
Proof.
  intros Hinc Hcst Hrange Hclip.
  destruct (derive_metrics_lookup row) as [Hr Hs].
  destruct (build_features_burden inc cst ag beds) as (Hb & _ & Hst).
  eexists _, _. split; [exact Hr|]. split; [exact Hs|].
  assert (Heq : CleanData.cost_burden_ratio_of row == App.burden_of inc cst).
  { unfold CleanData.cost_burden_ratio_of. rewrite Hcst, Hinc.
    unfold App.burden_of in *.
    assert (Hdiv : CleanData.replace_0_1 inc == Py.max inc 1).
    { unfold CleanData.replace_0_1, Py.max.
      destruct (Qeq_bool inc 0) eqn:E0, (Qltb inc 1) eqn:E1; qbool;
        try reflexivity; destruct Hrange; lra. }
    unfold CleanData.clip_upper.
    destruct (Qltb 3.0 (cst * 12 / CleanData.replace_0_1 inc)) eqn:E; qbool.
    - rewrite Hdiv in E. lra.
    - rewrite Hdiv. reflexivity. }
  split.
  - rewrite Hb. exact Heq.
  - rewrite Hst, affordability_status_eq. apply status_of_proper. exact Heq.
Qed.

Lemma C1_paths_agree_in_range_witness :
  exists r s,
    CleanData.derive_metrics {[ "ZINC2" := 45000; "COSTMED" := 1200 ]}
      !! "cost_burden_ratio" = Some r
    /\ CleanData.derive_metrics {[ "ZINC2" := 45000; "COSTMED" := 1200 ]}
      !! "affordability_status" = Some s
    /\ r == snd (App.build_features 45000 1200 35 3)
    /\ s = nth 5 (fst (App.build_features 45000 1200 35 3)) 0.
Proof.
  apply (C1_paths_agree_in_range _ 45000 1200 35 3).
  - reflexivity.
  - reflexivity.
  - right. lra.
  - vm_compute. discriminate.
Defined.

(** C1, as stated, fails.  With income 1300 and monthly cost 800 the cleaner
    stores the clipped ratio 3 and the request path 96/13; with income 0.5
    and monthly cost 1000 the cleaner divides by 0.5 and the request path
    by 1. *)
Lemma C1_counterexample :
  CleanData.derive_metrics {[ "ZINC2" := 1300; "COSTMED" := 800 ]}
    !! "cost_burden_ratio" = Some 3.0
  /\ snd (App.build_features 1300 800 35 3) == 96 # 13
  /\ ~ (CleanData.cost_burden_ratio_of {[ "ZINC2" := 1300; "COSTMED" := 800 ]}
        == snd (App.build_features 1300 800 35 3))
  /\ ~ (CleanData.cost_burden_ratio_of {[ "ZINC2" := 1 # 2; "COSTMED" := 1 # 10 ]}
        == snd (App.build_features (1 # 2) (1 # 10) 35 3)).
Proof.
  repeat split; vm_compute; congruence.
Qed.
End TrainingVersusInference.

(** ** The scoring view *)

Section ScoringView.
Open Scope Q_scope.

Variable float_of_str : string -> option Q.
Variable str_of_float : Q -> string.

Local Abbreviation predict := (App.predict float_of_str str_of_float).
Local Abbreviation prepare := (App.prepare float_of_str).
Local Abbreviation respond := (App.respond str_of_float).
Local Abbreviation validate_age := (App.validate_age float_of_str).

Lemma predict_loaded (m : App.KMeans) (sc : App.MinMaxScaler)
    (data : gmap string Py.value) :
  predict (Some m) (Some sc) data =
    match prepare m sc data with
    | Py.Return st => respond st
    | Py.Raise e => App.BadRequest e
    end.
Proof.
  unfold App.predict, App.predict_try.
  destruct (App.prepare float_of_str m sc data); reflexivity.
Qed.

Lemma predict_Success_inv (m : App.KMeans) (sc : App.MinMaxScaler)
    (data : gmap string Py.value) (b : App.Prediction) :
  predict (Some m) (Some sc) data = App.Success b ->
  exists st, prepare m sc data = Py.Return st /\ respond st = App.Success b.
Proof.
  rewrite predict_loaded.
  destruct (App.prepare float_of_str m sc data) as [st|e]; [|discriminate].
  intros H. exists st. split; [reflexivity|assumption].
Qed.

(** What [prepare] leaves in the locals. *)
Lemma prepare_Return (m : App.KMeans) (sc : App.MinMaxScaler)
    (data : gmap string Py.value) (st : App.Locals) :
  prepare m sc data = Py.Return st ->
  Py.float float_of_str (default (Py.VInt 50000) (data !! "income"))
    = Py.Return (App.safe_income st)
  /\ Py.float float_of_str (default (Py.VInt 1000) (data !! "cost"))
    = Py.Return (App.safe_cost st)
  /\ App.raw_age st = default Py.VNone (data !! "age")
  /\ validate_age (App.raw_age st) = Py.Return (App.age st)
  /\ App.primary_vec st
     = fst (App.build_features (App.safe_income st) (App.safe_cost st)
              (App.final_age (App.age st)) (App.safe_beds st))
  /\ App.primary_burden st = App.burden_of (App.safe_income st) (App.safe_cost st)
  /\ exists scaled,
       App.transform sc (App.primary_vec st) = Py.Return scaled
       /\ App.primary_cluster st = App.model_predict m scaled.
Proof.
  unfold App.prepare. intros H.
  cbn [mbind Py.result_bind Py.bind] in H.
  unfold mbind, Py.result_bind, Py.bind in H.
  destruct (Py.float float_of_str (default (Py.VInt 50000) (data !! "income")))
    as [inc|] eqn:Hinc; [|discriminate H].
  destruct (Py.float float_of_str (default (Py.VInt 1000) (data !! "cost")))
    as [cst|] eqn:Hcst; [|discriminate H].
  destruct (Py.float float_of_str (default (Py.VInt 3) (data !! "bedrooms")))
    as [beds|] eqn:Hbeds; [|discriminate H].
  destruct (App.validate_age float_of_str (default Py.VNone (data !! "age")))
    as [a|] eqn:Hage; [|discriminate H].
  destruct (App.build_features inc cst (App.final_age a) beds) as [vec burden] eqn:Hbf.
  destruct (App.transform sc vec) as [scaled|] eqn:Hsc; [|discriminate H].
  injection H as <-.
  cbn [App.raw_age App.age App.safe_income App.safe_cost App.safe_beds
       App.primary_vec App.primary_burden App.primary_cluster].
  repeat split; try assumption; try reflexivity.
  - rewrite Hbf. reflexivity.
  - unfold App.build_features in Hbf. injection Hbf as _ <-. reflexivity.
  - exists scaled. split; [assumption|reflexivity].
Qed.

Lemma burden_label_cases (vec : list Q) :
  (App.burden_label vec = "High" /\ 0.3 < nth 4 vec 0)
  \/ (App.burden_label vec = "Affordable" /\ nth 4 vec 0 <= 0.3).
Proof.
  unfold App.burden_label.
  destruct (Qltb 0.3 (nth 4 vec 0)) eqn:E; qbool; [left|right]; split;
    solve [reflexivity | assumption].
Qed.

Lemma respond_Success (st : App.Locals) (b : App.Prediction) :
  respond st = App.Success b ->
  exists mapping,
    App.cluster_policy_map !! App.primary_cluster st = Some mapping
    /\ App.cluster b = App.primary_cluster st
    /\ App.cost_burden_ratio b = App.primary_burden st
    /\ App.cost_burden_label b = App.burden_label (App.primary_vec st)
    /\ App.recommendation b = App.label mapping +:+ ": " +:+ App.policy mapping
    /\ App.anomaly_reasons b
       = App.anomalies_of str_of_float (App.age_anomaly (App.age st))
           (App.raw_age st)
           (App.possible_monthly (App.safe_income st) (App.safe_cost st)
              (App.primary_burden st))
    /\ App.anomaly_flag b = Nat.ltb 0 (length (App.anomaly_reasons b)).
Proof.
  unfold App.respond.
  destruct (App.cluster_policy_map !! App.primary_cluster st) as [mapping|];
    [|discriminate].
  intros H. injection H as <-. exists mapping. cbn. repeat split.
Qed.

(** C10.  In every successful response the cost-burden label is "High"
    when the ratio is strictly above 0.3 and "Affordable" otherwise; when
    the ratio is exactly 0.3 the label is "Affordable" while slot 5 of the
    feature vector, the status code, is 2. *)
Theorem C10_cost_burden_label (m : App.KMeans) (sc : App.MinMaxScaler)
    (data : gmap string Py.value) (b : App.Prediction) :
  predict (Some m) (Some sc) data = App.Success b ->
  ((App.cost_burden_label b = "High" /\ 0.3 < App.cost_burden_ratio b)
   \/ (App.cost_burden_label b = "Affordable" /\ App.cost_burden_ratio b <= 0.3))
  /\ (App.cost_burden_ratio b == 0.3 ->
      App.cost_burden_label b = "Affordable"
      /\ exists st, prepare m sc data = Py.Return st
                    /\ nth 5 (App.primary_vec st) 0 = 2).
Proof.
  intros H. apply predict_Success_inv in H as (st & Hprep & Hresp).
  pose proof Hprep as Hst.
  apply prepare_Return in Hst as (_ & _ & _ & _ & Hvec & Hburden & _).
  apply respond_Success in Hresp as (_ & _ & _ & Hratio & Hlabel & _).
  destruct (build_features_burden (App.safe_income st) (App.safe_cost st)
              (App.final_age (App.age st)) (App.safe_beds st)) as (_ & H4 & H5).
  rewrite <- Hvec, <- Hburden in H4, H5.
  rewrite Hratio, Hlabel.
  destruct (burden_label_cases (App.primary_vec st)) as [[Hl Hc]|[Hl Hc]];
    rewrite H4 in Hc.
  - split; [left; split; assumption|]. intros Heq. lra.
  - split; [right; split; assumption|]. intros Heq.
    split; [assumption|]. exists st. split; [assumption|].
    rewrite H5. unfold App.status_of.
    rewrite (Qltb_proper _ 0.3 0.3 0.3 Heq (Qeq_refl _)).
    rewrite (Qleb_proper _ 0.3 0.5 0.5 Heq (Qeq_refl _)).
    reflexivity.
Qed.
(** *** Policy lookup *)

Lemma policy_lookup_dom (c : Z) :
  is_Some (App.cluster_policy_map !! c) <-> (0 <= c <= 3)%Z.
Proof.
  unfold App.cluster_policy_map.
  rewrite !lookup_insert_is_Some', lookup_empty, <- not_eq_None_Some.
  split; [intros [?|[?|[?|[?|?]]]]; try lia; congruence|].
  intros H.
  destruct (decide (c = 0%Z)); [left; congruence|].
  destruct (decide (c = 1%Z)); [right; left; congruence|].
  destruct (decide (c = 2%Z)); [right; right; left; congruence|].
  right; right; right; left. lia.
Qed.

Lemma argmin_from_bound (ds : list Q) (i best : nat) (bestd : Q) :
  (best < i)%nat -> (App.argmin_from i best bestd ds < i + length ds)%nat.
Proof.
  revert i best bestd.
  induction ds as [|d ds IH]; intros i best bestd Hlt; cbn [App.argmin_from length].
  - lia.
  - destruct (Qltb d bestd).
    + specialize (IH (S i) i d). lia.
    + specialize (IH (S i) best bestd). lia.
Qed.

Lemma argmin_bound (ds : list Q) : (App.argmin ds <= pred (length ds))%nat.
Proof.
  destruct ds as [|d ds]; cbn [App.argmin length]; [lia|].
  pose proof (argmin_from_bound ds 1 0 d). lia.
Qed.

(** The assigner only emits ids of centroids the model has. *)
Lemma model_predict_range (m : App.KMeans) (v : list Q) :
  (0 <= App.model_predict m v <= Z.of_nat (pred (App.n_clusters m)))%Z.
Proof.
  unfold App.model_predict, App.n_clusters.
  pose proof (argmin_bound (map (App.sq_dist v) (App.cluster_centers_ m))) as H.
  rewrite length_map in H. lia.
Qed.

(** C3, as amended.  Once a request has been parsed and scored, a cluster
    id that is absent from the policy table makes the view answer with the
    explicit error "Invalid cluster predicted: id" (status 500) and no
    label or policy text; an id of the table yields its label and policy.
    The table holds exactly the ids 0 to 3, so every id in [0, k-1] that a
    model with k clusters emits resolves when k is at most 4. *)
Theorem C3_policy_lookup (m : App.KMeans) (sc : App.MinMaxScaler)
    (data : gmap string Py.value) (st : App.Locals) :
  prepare m sc data = Py.Return st ->
  let c := App.primary_cluster st in
  let r := predict (Some m) (Some sc) data in
  (App.cluster_policy_map !! c = None ->
     r = App.InvalidCluster c
     /\ App.status_code r = 500%Z
     /\ App.error_message r = Some ("Invalid cluster predicted: " +:+ pretty c))
  /\ (forall mapping, App.cluster_policy_map !! c = Some mapping ->
        exists b, r = App.Success b
                  /\ App.cluster b = c
                  /\ App.recommendation b
                     = App.label mapping +:+ ": " +:+ App.policy mapping)
  /\ (forall c' : Z, is_Some (App.cluster_policy_map !! c') <-> (0 <= c' <= 3)%Z)
  /\ (0 <= c <= Z.of_nat (pred (App.n_clusters m)))%Z
  /\ ((App.n_clusters m <= 4)%nat -> is_Some (App.cluster_policy_map !! c)).
Proof.
  intros Hprep c r.
  assert (Hr : r = respond st).
  { subst r. rewrite predict_loaded. rewrite Hprep. reflexivity. }
  assert (Hrange : (0 <= c <= Z.of_nat (pred (App.n_clusters m)))%Z).
  { apply prepare_Return in Hprep as (_ & _ & _ & _ & _ & _ & scaled & _ & Hc).
    subst c. rewrite Hc. apply model_predict_range. }
  split; [|split; [|split; [|split]]].
  - intros Hnone. rewrite Hr. unfold App.respond. fold c. rewrite Hnone.
    repeat split.
  - intros mapping Hsome. rewrite Hr. unfold App.respond. fold c. rewrite Hsome.
    eexists. repeat split.
  - apply policy_lookup_dom.
  - exact Hrange.
  - intros Hk. apply policy_lookup_dom. lia.
Qed.
(** *** Anomaly flags *)

(** The reasons of a successful response, for a request without an age. *)
Lemma reasons_without_age (m : App.KMeans) (sc : App.MinMaxScaler)
    (data : gmap string Py.value) (b : App.Prediction) (inc cst : Q) :
  predict (Some m) (Some sc) data = App.Success b ->
  Py.float float_of_str (default (Py.VInt 50000) (data !! "income")) = Py.Return inc ->
  Py.float float_of_str (default (Py.VInt 1000) (data !! "cost")) = Py.Return cst ->
  data !! "age" = None ->
  App.cost_burden_ratio b = App.burden_of inc cst
  /\ App.anomaly_reasons b
     = (if App.possible_monthly inc cst (App.burden_of inc cst)
        then ["Potential monthly income entry detected."] else [])
  /\ App.anomaly_flag b = App.possible_monthly inc cst (App.burden_of inc cst).
Proof.
  intros H Hinc Hcst Hage.
  apply predict_Success_inv in H as (st & Hprep & Hresp).
  apply prepare_Return in Hprep as (Hi & Hc & Hraw & Hval & _ & Hburden & _).
  apply respond_Success in Hresp as (_ & _ & _ & Hratio & _ & _ & Hreasons & Hflag).
  rewrite Hinc in Hi. injection Hi as Hi.
  rewrite Hcst in Hc. injection Hc as Hc.
  rewrite Hage in Hraw. cbn [default] in Hraw.
  rewrite Hraw in Hval, Hreasons. cbn in Hval. injection Hval as Hval.
  rewrite <- Hval, <- Hi, <- Hc, Hburden in Hreasons.
  cbn [App.age_anomaly App.anomalies_of app] in Hreasons.
  rewrite Hflag, Hreasons, Hratio, Hburden, <- Hi, <- Hc.
  repeat split.
  destruct (App.possible_monthly inc cst (App.burden_of inc cst)); reflexivity.
Qed.

(** C4, the behaviour of the code on the request of [test_fix.py].  For
    income 1300 and cost 800 the monthly-income heuristic fires and the
    response is flagged, but the response carries the six flat keys only:
    no alternative interpretation, hence no adjusted annual income, is
    returned. *)
Theorem C4_no_alternative_interpretation (m : App.KMeans)
    (sc : App.MinMaxScaler) (b : App.Prediction) :
  predict (Some m) (Some sc)
    (Examples.request [("income", Py.VInt 1300); ("cost", Py.VInt 800)])
    = App.Success b ->
  App.possible_monthly 1300 800 (App.burden_of 1300 800) = true
  /\ App.anomaly_flag b = true
  /\ App.anomaly_reasons b = ["Potential monthly income entry detected."]
  /\ (App.jsonify b).*1
     = ["cluster"; "cost_burden_ratio"; "cost_burden_label"; "recommendation";
        "anomaly_flag"; "anomaly_reasons"]
  /\ "alternative_interpretation" ∉ (App.jsonify b).*1.
Proof.
  intros H.
  apply (reasons_without_age _ _ _ _ 1300 800) in H as (_ & Hreasons & Hflag);
    [|reflexivity..].
  change (App.possible_monthly 1300 800 (App.burden_of 1300 800)) with true in *.
  repeat split; try assumption.
  cbn. intros Hin. repeat (apply elem_of_cons in Hin as [Hin|Hin]; [discriminate|]).
  inversion Hin.
Qed.

(** C5, the behaviour of the code where the two extreme-value flags are
    due.  For income 6000 and cost 1100 the ratio exceeds 2.0 and the income
    is at most 6000, yet the list of reasons is empty and the flag is off;
    for income 1300 and cost 800, the request of [test_api.py], the only
    reason given is the monthly-income one. *)
Theorem C5_extreme_value_flags_missing (m : App.KMeans)
    (sc : App.MinMaxScaler) (b1 b2 : App.Prediction) :
  predict (Some m) (Some sc)
    (Examples.request [("income", Py.VInt 6000); ("cost", Py.VInt 1100)])
    = App.Success b1 ->
  predict (Some m) (Some sc)
    (Examples.request [("income", Py.VInt 1300); ("cost", Py.VInt 800)])
    = App.Success b2 ->
  (2.0 < App.cost_burden_ratio b1
   /\ App.anomaly_reasons b1 = [] /\ App.anomaly_flag b1 = false)
  /\ (2.0 < App.cost_burden_ratio b2
      /\ App.anomaly_reasons b2 = ["Potential monthly income entry detected."]).
Proof.
  intros H1 H2.
  apply (reasons_without_age _ _ _ _ 6000 1100) in H1 as (Hr1 & Hreasons1 & Hflag1);
    [|reflexivity..].
  apply (reasons_without_age _ _ _ _ 1300 800) in H2 as (Hr2 & Hreasons2 & _);
    [|reflexivity..].
  rewrite Hr1, Hr2.
  change (App.possible_monthly 6000 1100 (App.burden_of 6000 1100)) with false in *.
  change (App.possible_monthly 1300 800 (App.burden_of 1300 800)) with true in *.
  repeat split; try assumption; vm_compute; reflexivity.
Qed.

(** In every successful response the aggregate flag is set exactly when
    the list of reasons is non-empty. *)
Lemma anomaly_flag_iff (m : App.KMeans) (sc : App.MinMaxScaler)
    (data : gmap string Py.value) (b : App.Prediction) :
  predict (Some m) (Some sc) data = App.Success b ->
  App.anomaly_flag b = true <-> App.anomaly_reasons b <> [].
Proof.
  intros H. apply predict_Success_inv in H as (st & _ & Hresp).
  apply respond_Success in Hresp as (_ & _ & _ & _ & _ & _ & _ & Hflag).
  rewrite Hflag. destruct (App.anomaly_reasons b); cbn; split; congruence.
Qed.

(** *** Age validation *)

Lemma validate_age_missing (raw : Py.value) :
  raw = Py.VNone \/ raw = Py.VStr "" ->
  validate_age raw
    = Py.Return {| App.final_age := App.AGE_MEDIAN; App.age_anomaly := false;
                   App.age_log := ["LOG: age_defaulted_missing"] |}.
Proof. intros [-> | ->]; reflexivity. Qed.

Lemma validate_age_unparsable_str (s : string) :
  float_of_str s = None ->
  validate_age (Py.VStr s)
    = Py.Return {| App.final_age := App.AGE_MEDIAN; App.age_anomaly := false;
                   App.age_log := ["LOG: age_defaulted_missing"] |}.
Proof.
  intros H. unfold App.validate_age.
  destruct (Py.is_None (Py.VStr s) || Py.eq_empty_str (Py.VStr s)); [reflexivity|].
  cbn [Py.float]. rewrite H. reflexivity.
Qed.

Lemma validate_age_parsed (raw : Py.value) (parsed_age : Q) :
  raw <> Py.VNone -> raw <> Py.VStr "" ->
  Py.float float_of_str raw = Py.Return parsed_age ->
  validate_age raw
    = Py.Return (if Qltb parsed_age 18 || Qltb 110 parsed_age
                 then {| App.final_age := App.AGE_MEDIAN; App.age_anomaly := true;
                         App.age_log := ["LOG: age_out_of_range"] |}
                 else {| App.final_age := parsed_age; App.age_anomaly := false;
                         App.age_log := [] |}).
Proof.
  intros Hnone Hempty Hfloat. unfold App.validate_age.
  replace (Py.is_None raw || Py.eq_empty_str raw) with false.
  - rewrite Hfloat. destruct (Qltb parsed_age 18 || Qltb 110 parsed_age); reflexivity.
  - symmetry. apply orb_false_intro.
    + destruct raw; try reflexivity. congruence.
    + destruct raw; try reflexivity. cbn. destruct (decide (s = "")); [|reflexivity].
      subst. congruence.
Qed.

(** An age that [float] refuses with [TypeError] is not defaulted. *)
Lemma validate_age_type_error (raw : Py.value) :
  (exists l, raw = Py.VList l) \/ (exists l, raw = Py.VDict l) ->
  validate_age raw = Py.Raise Py.TypeError.
Proof. intros [[l ->] | [l ->]]; reflexivity. Qed.

(** C6, the behaviour of the code on an age that is a JSON array or object.
    Such an age cannot be parsed, [float] raises [TypeError], the handler of
    the age block catches [ValueError] only, and the request fails with
    status 400 instead of proceeding with the median age. *)
Theorem C6_unparsable_age_fails (m : App.KMeans) (sc : App.MinMaxScaler)
    (data : gmap string Py.value) (raw : Py.value) :
  data !! "age" = Some raw ->
  (exists l, raw = Py.VList l) \/ (exists l, raw = Py.VDict l) ->
  exists e, predict (Some m) (Some sc) data = App.BadRequest e
            /\ App.status_code (predict (Some m) (Some sc) data) = 400%Z.
Proof.
  intros Hage Hraw. rewrite predict_loaded. unfold App.prepare.
  unfold mbind, Py.result_bind, Py.bind.
  destruct (Py.float float_of_str (default (Py.VInt 50000) (data !! "income")));
    [|eexists; split; reflexivity].
  destruct (Py.float float_of_str (default (Py.VInt 1000) (data !! "cost")));
    [|eexists; split; reflexivity].
  destruct (Py.float float_of_str (default (Py.VInt 3) (data !! "bedrooms")));
    [|eexists; split; reflexivity].
  rewrite Hage. change (default Py.VNone (Some raw)) with raw.
  rewrite (validate_age_type_error raw Hraw).
  eexists; split; reflexivity.
Qed.
End ScoringView.

(** *** The view on concrete artifacts *)

Section ScoringExamples.
Open Scope Q_scope.
Import Examples.

Lemma C10_cost_burden_label_witness :
  exists b,
    predict (Some model4) (Some scaler)
      (request [("income", Py.VInt 10000); ("cost", Py.VInt 250)]) = App.Success b
    /\ App.cost_burden_ratio b == 0.3
    /\ App.cost_burden_label b = "Affordable"
    /\ exists st,
         App.prepare float_of_str model4 scaler
           (request [("income", Py.VInt 10000); ("cost", Py.VInt 250)])
           = Py.Return st
         /\ nth 5 (App.primary_vec st) 0 = 2.
Proof.
  eexists. split; [vm_compute; reflexivity|].
  split; [vm_compute; reflexivity|].
  refine (proj2 (C10_cost_burden_label float_of_str str_of_float model4 scaler
                   (request [("income", Py.VInt 10000); ("cost", Py.VInt 250)])
                   _ _) _).
  - vm_compute. reflexivity.
  - vm_compute. reflexivity.
Defined.

Lemma C3_policy_lookup_witness :
  exists st,
    App.prepare float_of_str model4 scaler
      (request [("income", Py.VInt 45000); ("cost", Py.VInt 1200);
                ("age", Py.VInt 35); ("bedrooms", Py.VInt 3)]) = Py.Return st
    /\ (App.n_clusters model4 <= 4)%nat
    /\ is_Some (App.cluster_policy_map !! App.primary_cluster st).
Proof.
  eexists. split; [vm_compute; reflexivity|].
  split; [vm_compute; lia|].
  refine (proj2 (proj2 (proj2 (proj2
    (C3_policy_lookup float_of_str str_of_float model4 scaler
       (request [("income", Py.VInt 45000); ("cost", Py.VInt 1200);
                 ("age", Py.VInt 35); ("bedrooms", Py.VInt 3)]) _ _)))) _).
  - vm_compute. reflexivity.
  - vm_compute. lia.
Defined.

(** C3, as stated, fails on a model with five clusters: the id 4 lies in
    [0, k-1], has no entry in the policy table, and the request that is
    assigned to it is answered with the error. *)
Lemma C3_counterexample :
  App.n_clusters model5 = 5%nat
  /\ predict (Some model5) (Some scaler)
       (request [("income", Py.VInt 1300); ("cost", Py.VInt 800)])
     = App.InvalidCluster 4
  /\ App.cluster_policy_map !! 4%Z = None.
Proof. repeat split; vm_compute; reflexivity. Qed.

Lemma C4_no_alternative_interpretation_witness :
  exists b,
    predict (Some model4) (Some scaler)
      (request [("income", Py.VInt 1300); ("cost", Py.VInt 800)]) = App.Success b
    /\ App.anomaly_flag b = true
    /\ "alternative_interpretation" ∉ (App.jsonify b).*1.
Proof.
  eassert (H : predict (Some model4) (Some scaler)
                 (request [("income", Py.VInt 1300); ("cost", Py.VInt 800)])
               = App.Success _) by (vm_compute; reflexivity).
  eexists. split; [exact H|].
  pose proof (C4_no_alternative_interpretation float_of_str str_of_float
                model4 scaler _ H) as (_ & Hflag & _ & _ & Hkeys).
  split; [exact Hflag|exact Hkeys].
Defined.

Lemma C5_extreme_value_flags_missing_witness :
  exists b1 b2,
    predict (Some model4) (Some scaler)
      (request [("income", Py.VInt 6000); ("cost", Py.VInt 1100)]) = App.Success b1
    /\ predict (Some model4) (Some scaler)
      (request [("income", Py.VInt 1300); ("cost", Py.VInt 800)]) = App.Success b2
    /\ App.anomaly_reasons b1 = []
    /\ App.anomaly_reasons b2 = ["Potential monthly income entry detected."].
Proof.
  eassert (E1 : predict (Some model4) (Some scaler)
                  (request [("income", Py.VInt 6000); ("cost", Py.VInt 1100)])
                = App.Success _) by (vm_compute; reflexivity).
  eassert (E2 : predict (Some model4) (Some scaler)
                  (request [("income", Py.VInt 1300); ("cost", Py.VInt 800)])
                = App.Success _) by (vm_compute; reflexivity).
  eexists _, _. split; [exact E1|]. split; [exact E2|].
  pose proof (C5_extreme_value_flags_missing float_of_str str_of_float
                model4 scaler _ _ E1 E2) as ((_ & H1 & _) & (_ & H2)).
  split; [exact H1|exact H2].
Defined.

Lemma C6_unparsable_age_fails_witness :
  exists e,
    predict (Some model4) (Some scaler)
      (request [("income", Py.VInt 45000); ("cost", Py.VInt 1200);
                ("age", Py.VList [Py.VInt 35])]) = App.BadRequest e
    /\ App.status_code
         (predict (Some model4) (Some scaler)
            (request [("income", Py.VInt 45000); ("cost", Py.VInt 1200);
                      ("age", Py.VList [Py.VInt 35])])) = 400%Z.
Proof.
  apply (C6_unparsable_age_fails float_of_str str_of_float model4 scaler _
           (Py.VList [Py.VInt 35])).
  - reflexivity.
  - left. exists [Py.VInt 35]. reflexivity.
Defined.

(** The parts of the age rule that hold, on the reference builtins: an
    absent age, an empty one and a string that is no number give the median
    without anomaly; 140 gives the median with the anomaly and is echoed. *)
Example age_scenarios :
  validate_age Py.VNone
    = Py.Return {| App.final_age := 35; App.age_anomaly := false;
                   App.age_log := ["LOG: age_defaulted_missing"] |}
  /\ validate_age (Py.VStr "abc")
    = Py.Return {| App.final_age := 35; App.age_anomaly := false;
                   App.age_log := ["LOG: age_defaulted_missing"] |}
  /\ validate_age (Py.VInt 140)
    = Py.Return {| App.final_age := 35; App.age_anomaly := true;
                   App.age_log := ["LOG: age_out_of_range"] |}
  /\ App.anomalies_of str_of_float true (Py.VInt 140) false
    = ["Age 140 invalid (out of range). used median."].
Proof. repeat split. Qed.
End ScoringExamples.

(** ** The stand-alone scoring logic raises the extreme-value flags *)

Section SiblingLogic.
Open Scope Q_scope.

Lemma predict_logic_flags (m : App.KMeans) (sc : App.MinMaxScaler)
    (income cost age bedrooms : Q) (o : TestPrediction.Outcome) :
  TestPrediction.predict_logic (Some m) (Some sc) income cost age bedrooms
    = Py.Return (Some o) ->
  (2.0 < TestPrediction.cost_burden_ratio o ->
     "Extremely high cost burden (>200%)" ∈ TestPrediction.anomaly_reasons o)
  /\ (income <= 6000 ->
     "Extremely low income (<= $6000)" ∈ TestPrediction.anomaly_reasons o)
  /\ (TestPrediction.anomaly_flag o = true <-> TestPrediction.anomaly_reasons o <> []).
Proof.
  unfold TestPrediction.predict_logic.
  destruct (App.transform sc _) as [scaled|]; [|discriminate].
  cbn [mbind Py.result_bind Py.bind mret Py.result_ret].
  intros H. injection H as <-.
  cbn [TestPrediction.cost_burden_ratio TestPrediction.anomaly_reasons
       TestPrediction.anomaly_flag].
  unfold TestPrediction.anomalies_of.
  split; [|split].
  - intros Hb. apply Qltb_lt in Hb. rewrite Hb. apply elem_of_app. left.
    apply list_elem_of_here.
  - intros Hi. apply Qleb_le in Hi. rewrite Hi. apply elem_of_app. right.
    apply list_elem_of_here.
  - destruct (Qltb 2.0 _), (Qleb income 6000); cbn; split; congruence.
Qed.
End SiblingLogic.

(** ** Imputation *)

Section MaxOfCounts.
Context {A : Type} (f : A -> nat).

Lemma foldr_max_ge (l : list A) (y : A) :
  y ∈ l -> (f y <= foldr Nat.max O (map f l))%nat.
Proof.
  induction l as [|x l IH]; intros Hin.
  - inversion Hin.
  - cbn [map foldr]. apply elem_of_cons in Hin as [->|Hin].
    + lia.
    + specialize (IH Hin). lia.
Qed.

Lemma foldr_max_attained (l : list A) :
  l <> [] -> exists x, x ∈ l /\ f x = foldr Nat.max O (map f l).
Proof.
  induction l as [|x l IH]; intros Hne; [congruence|].
  cbn [map foldr].
  destruct l as [|x' l'].
  - exists x. split; [apply list_elem_of_here|]. cbn. lia.
  - destruct IH as (z & Hz & Heq); [discriminate|].
    destruct (Nat.le_gt_cases (f x) (foldr Nat.max O (map f (x' :: l')))) as [Hle|Hgt].
    + exists z. split; [apply list_elem_of_further; assumption|]. lia.
    + exists x. split; [apply list_elem_of_here|]. lia.
Qed.
End MaxOfCounts.

Section ModeFacts.
Context {A : Type} (eqb : A -> A -> bool).
Context (R : relation A) `{!forall x y, Decision (R x y)}.
Context `{!Transitive R} `{!Total R}.
Hypothesis eqb_refl : forall x, eqb x x = true.
Hypothesis eqb_R : forall x y, eqb x y = true -> R y x.

Local Abbreviation count := (CleanData.count eqb).
Local Abbreviation max_count := (CleanData.max_count eqb).
Local Abbreviation unique := (CleanData.unique eqb).

Lemma most_frequent_iff (x : A) (vals : list A) :
  CleanData.most_frequent eqb x vals
  <-> x ∈ vals /\ count x vals = max_count vals.
Proof.
  unfold CleanData.most_frequent, CleanData.max_count. split.
  - intros [Hin Hmax]. split; [assumption|].
    apply Nat.le_antisymm.
    + apply (foldr_max_ge (fun y => count y vals)). assumption.
    + destruct (foldr_max_attained (fun y => count y vals) vals) as (z & Hz & <-).
      * intros ->. inversion Hin.
      * apply Hmax. assumption.
  - intros [Hin Heq]. split; [assumption|].
    intros y Hy. rewrite Heq.
    apply (foldr_max_ge (fun y => count y vals)). assumption.
Qed.

Lemma unique_subset (l : list A) (x : A) : x ∈ unique l -> x ∈ l.
Proof.
  induction l as [|y l IH]; cbn [CleanData.unique]; [trivial|].
  destruct (existsb (eqb y) (unique l)).
  - intros Hu. apply list_elem_of_further. auto.
  - intros Hu. apply elem_of_cons in Hu as [->|Hu].
    + apply list_elem_of_here.
    + apply list_elem_of_further. auto.
Qed.

Lemma unique_represents (l : list A) (x : A) :
  x ∈ l -> exists x', x' ∈ unique l /\ eqb x x' = true.
Proof.
  induction l as [|y l IH]; intros Hin; [inversion Hin|].
  cbn [CleanData.unique].
  apply elem_of_cons in Hin as [->|Hin].
  - destruct (existsb (eqb y) (unique l)) eqn:E.
    + apply existsb_exists in E as (x' & Hx' & Heq).
      exists x'. split; [apply list_elem_of_In; assumption|assumption].
    + exists y. split; [apply list_elem_of_here|apply eqb_refl].
  - destruct (IH Hin) as (x' & Hx' & Heq).
    exists x'. split; [|assumption].
    destruct (existsb (eqb y) (unique l)); [assumption|].
    apply list_elem_of_further. assumption.
Qed.

Lemma sorted_head_least (l : list A) (m : A) :
  head (merge_sort R l) = Some m ->
  m ∈ l /\ forall y, y ∈ l -> R m y.
Proof.
  intros Hhead.
  pose proof (StronglySorted_merge_sort R l) as Hsorted.
  pose proof (merge_sort_Permutation R l) as Hperm.
  destruct (merge_sort R l) as [|h t]; [discriminate|].
  injection Hhead as ->.
  split.
  - rewrite <- Hperm. apply list_elem_of_here.
  - intros y Hy. rewrite <- Hperm in Hy.
    apply elem_of_cons in Hy as [->|Hy].
    + destruct (total R m m); assumption.
    + apply StronglySorted_inv in Hsorted as [_ Hall].
      rewrite Forall_forall in Hall. apply Hall. assumption.
Qed.

(** [mode()[0]] is a most frequent value, and the least of them. *)
Lemma mode_head_least (cells : list (option A)) (m : A) :
  head (CleanData.mode eqb R cells) = Some m ->
  CleanData.most_frequent eqb m (CleanData.dropna cells)
  /\ forall y, CleanData.most_frequent eqb y (CleanData.dropna cells) -> R m y.
Proof.
  unfold CleanData.mode. intros Hhead.
  apply sorted_head_least in Hhead as [Hin Hleast].
  split.
  - apply most_frequent_iff.
    apply unique_subset, list_elem_of_filter in Hin as [Hc Hv].
    split; assumption.
  - intros y Hy. apply most_frequent_iff in Hy as [Hv Hc].
    destruct (unique_represents
                (filter (fun x => count x (CleanData.dropna cells)
                                  = max_count (CleanData.dropna cells))
                        (CleanData.dropna cells)) y) as (y' & Hy' & Heq).
    { apply list_elem_of_filter. split; assumption. }
    transitivity y'; [apply Hleast; assumption|apply eqb_R; assumption].
Qed.

Lemma mode_nonempty (cells : list (option A)) :
  CleanData.dropna cells <> [] -> exists m, head (CleanData.mode eqb R cells) = Some m.
Proof.
  intros Hne. unfold CleanData.mode.
  destruct (foldr_max_attained (fun y => count y (CleanData.dropna cells))
              (CleanData.dropna cells) Hne) as (z & Hz & Heq).
  destruct (unique_represents
              (filter (fun x => count x (CleanData.dropna cells)
                                = max_count (CleanData.dropna cells))
                      (CleanData.dropna cells)) z) as (z' & Hz' & _).
  { apply list_elem_of_filter. split; assumption. }
  rewrite <- (merge_sort_Permutation R) in Hz'.
  destruct (merge_sort R _) as [|h t]; [inversion Hz'|].
  exists h. reflexivity.
Qed.

(** The branch of the loop that fills with the mode. *)
Lemma fill_mode_least (cells : list (option A)) :
  CleanData.dropna cells <> [] ->
  exists m,
    CleanData.fill_mode eqb R cells = CleanData.fillna m cells
    /\ CleanData.most_frequent eqb m (CleanData.dropna cells)
    /\ forall y, CleanData.most_frequent eqb y (CleanData.dropna cells) -> R m y.
Proof.
  intros Hne. destruct (mode_nonempty cells Hne) as (m & Hm).
  exists m. split; [|apply mode_head_least; assumption].
  unfold CleanData.fill_mode.
  destruct (CleanData.mode eqb R cells); [discriminate|].
  injection Hm as ->. reflexivity.
Qed.
End ModeFacts.

Section ImputeFacts.
Open Scope Q_scope.

#[local] Instance Qle_transitive : Transitive Qle.
Proof. intros x y z. apply Qle_trans. Qed.

#[local] Instance Qle_total : Total Qle.
Proof.
  intros x y. destruct (Qlt_le_dec x y) as [Hlt|Hle].
  - left. apply Qlt_le_weak. assumption.
  - right. assumption.
Qed.

Lemma ascii_compare_refl (x : ascii) : Ascii.compare x x = Eq.
Proof. unfold Ascii.compare. apply N.compare_refl. Qed.

Lemma ascii_compare_lt_trans (x y z : ascii) :
  Ascii.compare x y = Lt -> Ascii.compare y z = Lt -> Ascii.compare x z = Lt.
Proof.
  unfold Ascii.compare. rewrite !N.compare_lt_iff. apply N.lt_trans.
Qed.

Lemma str_le_trans (a b c : string) :
  CleanData.str_le a b -> CleanData.str_le b c -> CleanData.str_le a c.
Proof.
  unfold CleanData.str_le, String.leb. revert b c.
  induction a as [|x a IH]; intros [|y b] [|z c]; cbn [String.compare];
    try congruence.
  destruct (Ascii.compare x y) eqn:Exy; try discriminate;
    destruct (Ascii.compare y z) eqn:Eyz; try discriminate.
  - apply Ascii.compare_eq_iff in Exy, Eyz. subst.
    rewrite ascii_compare_refl. apply IH.
  - apply Ascii.compare_eq_iff in Exy. subst. rewrite Eyz. reflexivity.
  - apply Ascii.compare_eq_iff in Eyz. subst. rewrite Exy. reflexivity.
  - rewrite (ascii_compare_lt_trans x y z Exy Eyz). reflexivity.
Qed.

#[local] Instance str_le_transitive : Transitive CleanData.str_le.
Proof. intros x y z. apply str_le_trans. Qed.

#[local] Instance str_le_total : Total CleanData.str_le.
Proof. intros x y. apply String.leb_total. Qed.

Lemma fillna_lookup {A : Type} (v : A) (cells : list (option A)) (i : nat) :
  CleanData.fillna v cells !! i = (fun c => Some (default v c)) <$> cells !! i.
Proof.
  unfold CleanData.fillna. rewrite list_lookup_fmap.
  destruct (cells !! i) as [[x|]|]; reflexivity.
Qed.

Lemma dropna_length_pos {A : Type} (cells : list (option A)) :
  CleanData.dropna cells <> [] -> (0 < length (CleanData.dropna cells))%nat.
Proof. destruct (CleanData.dropna cells); [congruence|cbn; lia]. Qed.

Lemma median_defined (cells : list (option Q)) :
  CleanData.dropna cells <> [] -> exists m, CleanData.median cells = Some m.
Proof.
  intros Hne. apply dropna_length_pos in Hne.
  unfold CleanData.median.
  rewrite <- (Permutation_length (merge_sort_Permutation Qle (CleanData.dropna cells))) in Hne.
  set (sorted := merge_sort Qle (CleanData.dropna cells)) in *.
  destruct (Nat.eqb_spec (length sorted) 0) as [E|E]; [lia|].
  assert (Hhalf : (length sorted / 2 < length sorted)%nat)
    by (apply Nat.div_lt; lia).
  destruct (lookup_lt_is_Some_2 sorted (length sorted / 2) Hhalf) as [b Hb].
  destruct (Nat.odd (length sorted)).
  - exists b. assumption.
  - assert (Hprev : (length sorted / 2 - 1 < length sorted)%nat) by lia.
    destruct (lookup_lt_is_Some_2 sorted _ Hprev) as [a Ha].
    rewrite Ha, Hb. eexists. reflexivity.
Qed.



End ImputeFacts.

(** ** The correlation filter *)

Section CorrelationFilter.
Open Scope Q_scope.

Variable corr : string -> string -> option Q.

Lemma any_above_iff (columns : list string) (j : nat) :
  RefineData.any_above corr columns j = true
  <-> exists i row col,
        (i < j)%nat /\ columns !! i = Some row /\ columns !! j = Some col
        /\ RefineData.gt_threshold (RefineData.corr_matrix corr row col) = true.
Proof.
  unfold RefineData.any_above. rewrite existsb_exists. split.
  - intros (i & _ & Hgt). unfold RefineData.upper in Hgt.
    destruct (Nat.ltb_spec i j) as [Hlt|]; [|discriminate].
    destruct (columns !! i) as [row|] eqn:Hi; [|discriminate].
    destruct (columns !! j) as [col|] eqn:Hj; [|discriminate].
    exists i, row, col. repeat split; solve [assumption|reflexivity].
  - intros (i & row & col & Hlt & Hi & Hj & Hgt).
    exists i. split.
    + apply in_seq. apply lookup_lt_Some in Hj. lia.
    + unfold RefineData.upper.
      destruct (Nat.ltb_spec i j) as [_|]; [|lia].
      rewrite Hi, Hj. assumption.
Qed.

Lemma to_drop_iff (columns : list string) (c : string) :
  c ∈ RefineData.to_drop corr columns
  <-> exists i j row,
        (i < j)%nat /\ columns !! i = Some row /\ columns !! j = Some c
        /\ RefineData.gt_threshold (RefineData.corr_matrix corr row c) = true.
Proof.
  unfold RefineData.to_drop. rewrite list_elem_of_omap. split.
  - intros (j & _ & Hj).
    destruct (RefineData.any_above corr columns j) eqn:Hany; [|discriminate].
    apply any_above_iff in Hany as (i & row & col & Hlt & Hi & Hcol & Hgt).
    rewrite Hcol in Hj. injection Hj as ->.
    exists i, j, row. repeat split; assumption.
  - intros (i & j & row & Hlt & Hi & Hj & Hgt).
    exists j. split.
    + apply elem_of_seq. apply lookup_lt_Some in Hj. lia.
    + replace (RefineData.any_above corr columns j) with true; [assumption|].
      symmetry. apply any_above_iff. exists i, row, c. repeat split; assumption.
Qed.

(** The first column of the table is never dropped. *)
Lemma first_column_kept (columns : list string) (c : string) :
  NoDup columns -> columns !! 0%nat = Some c ->
  c ∉ RefineData.to_drop corr columns.
Proof.
  intros Hnd H0 Hin.
  apply to_drop_iff in Hin as (i & j & row & Hlt & _ & Hj & _).
  pose proof (NoDup_lookup _ _ _ _ Hnd H0 Hj). lia.
Qed.

(** C8, as amended.  The filter has no priority list: a column is dropped
    exactly when some column standing before it in the feature table, whose
    order is that of the candidate list, correlates with it above 0.85 in
    absolute value.  Of a pair above the threshold the later column is thus
    always dropped, and the earlier one is dropped too when a still earlier
    column correlates with it.  The dropped list is the one printed to the
    log, and the final features are the columns outside it. *)
Theorem C8_to_drop_positional (columns : list string) :
  (forall c,
      c ∈ RefineData.to_drop corr columns
      <-> exists i j row,
            (i < j)%nat /\ columns !! i = Some row /\ columns !! j = Some c
            /\ RefineData.gt_threshold (RefineData.corr_matrix corr row c) = true)
  /\ (forall i j a b,
        (i < j)%nat -> columns !! i = Some a -> columns !! j = Some b ->
        RefineData.gt_threshold (RefineData.corr_matrix corr a b) = true ->
        b ∈ RefineData.to_drop corr columns)
  /\ (forall c,
        c ∈ RefineData.final_features corr columns
        <-> c ∈ columns /\ c ∉ RefineData.to_drop corr columns).
Proof.
  split; [|split].
  - apply to_drop_iff.
  - intros i j a b Hlt Hi Hj Hgt. apply to_drop_iff.
    exists i, j, a. repeat split; assumption.
  - intros c. unfold RefineData.final_features.
    rewrite list_elem_of_filter. tauto.
Qed.
End CorrelationFilter.

Section CorrelationExamples.
Open Scope Q_scope.
Import Examples.

(** The table [households_corr] is the correlation of the frame
    [households]: every entry is Pearson's coefficient of its two columns,
    which hold the four households' values.  The frame has no negative and
    no missing cell, so the steps before the filter leave it as it is. *)
Lemma households_corr_is_pearson :
  RefineData.feature_columns households_columns [] = households_columns
  /\ Forall (fun name => length (column name) = 4%nat) households_columns
  /\ Forall (fun name =>
       Cleaner.clean_negative (Some <$> column name) = Some <$> column name)
       households_columns
  /\ Forall (fun a =>
       Forall (fun b =>
         RefineData.is_pearson (column a) (column b) (households_corr a b))
         households_columns)
       households_columns.
Proof.
  split; [vm_compute; reflexivity|]. split; [|split].
  - repeat constructor.
  - repeat constructor.
  - repeat (apply Forall_cons; split); try apply Forall_nil;
      vm_compute; repeat split; congruence.
Qed.

Lemma C8_to_drop_positional_witness :
  "affordability_status" ∈ RefineData.to_drop households_corr households_columns.
Proof.
  destruct (C8_to_drop_positional households_corr households_columns)
    as (_ & Hlater & _).
  apply (Hlater 2%nat 3%nat "cost_burden_ratio" "affordability_status").
  - lia.
  - reflexivity.
  - reflexivity.
  - vm_compute. reflexivity.
Defined.

(** C8, as stated, fails.  On the frame [households] the monthly cost and
    the burden ratio correlate at 47/51, the burden ratio and its status
    code at 49/51, both above the threshold, and the monthly cost and the
    status code at 7/9, below it.  The filter drops the burden ratio, which
    stands after the monthly cost, and the status code, which stands after
    the burden ratio: the continuous measure is not retained over its coded
    derivative, and both columns of the pair go. *)
Lemma C8_counterexample :
  RefineData.coded_derivative_of "affordability_status" "cost_burden_ratio" = true
  /\ RefineData.is_pearson (column "COSTMED") (column "cost_burden_ratio")
       (Some (47 # 51))
  /\ RefineData.is_pearson (column "cost_burden_ratio")
       (column "affordability_status") (Some (49 # 51))
  /\ RefineData.gt_threshold
       (RefineData.corr_matrix households_corr
          "cost_burden_ratio" "affordability_status")
     = true
  /\ RefineData.to_drop households_corr
       (RefineData.feature_columns households_columns [])
     = ["cost_burden_ratio"; "affordability_status"]
  /\ RefineData.final_features households_corr
       (RefineData.feature_columns households_columns [])
     = ["ZINC2"; "COSTMED"].
Proof.
  split; [reflexivity|].
  split; [vm_compute; repeat split; congruence|].
  split; [vm_compute; repeat split; congruence|].
  split; [vm_compute; reflexivity|].
  split; vm_compute; reflexivity.
Qed.
End CorrelationExamples.

(** ** The choice of the cluster count *)

Section ArgmaxFacts.
Open Scope Q_scope.

(** The loop invariant of [np.argmax] over [pre ++ xs]: [best] holds the
    first position of the greatest value met so far. *)
Lemma argmax_from_spec (xs pre l : list Q) (best : nat) :
  l = pre ++ xs ->
  (best < length pre)%nat ->
  (forall j, (j < length pre)%nat -> nth j l 0 <= nth best l 0) ->
  (forall j, (j < best)%nat -> nth j l 0 < nth best l 0) ->
  (RunAnalysis.argmax_from (length pre) best (nth best l 0%Q) xs < length l)%nat
  /\ (forall j, (j < length l)%nat ->
        nth j l 0
        <= nth (RunAnalysis.argmax_from (length pre) best (nth best l 0%Q) xs) l 0)
  /\ (forall j,
        (j < RunAnalysis.argmax_from (length pre) best (nth best l 0%Q) xs)%nat ->
        nth j l 0
        < nth (RunAnalysis.argmax_from (length pre) best (nth best l 0%Q) xs) l 0).
Proof.
  revert pre best.
  induction xs as [|x xs IH]; intros pre best Hl Hbest Hmax Hfirst.
  - cbn [RunAnalysis.argmax_from]. rewrite app_nil_r in Hl. subst l.
    repeat split; assumption.
  - cbn [RunAnalysis.argmax_from].
    assert (Hl' : l = (pre ++ [x]) ++ xs) by (rewrite Hl, <- app_assoc; reflexivity).
    assert (Hx : nth (length pre) l 0 = x) by (rewrite Hl; apply nth_middle).
    assert (Hlen : length (pre ++ [x]) = S (length pre))
      by (rewrite length_app; cbn; lia).
    destruct (Qltb (nth best l 0) x) eqn:E; qbool.
    + specialize (IH (pre ++ [x]) (length pre) Hl').
      rewrite Hlen, Hx in IH. apply IH.
      * lia.
      * intros j Hj. destruct (decide (j = length pre)) as [->|Hne].
        -- rewrite Hx. apply Qle_refl.
        -- specialize (Hmax j ltac:(lia)). lra.
      * intros j Hj. specialize (Hmax j Hj). lra.
    + specialize (IH (pre ++ [x]) best Hl').
      rewrite Hlen in IH. apply IH.
      * lia.
      * intros j Hj. destruct (decide (j = length pre)) as [->|Hne].
        -- rewrite Hx. assumption.
        -- apply Hmax. lia.
      * assumption.
Qed.

Lemma argmax_spec (l : list Q) :
  l <> [] ->
  (RunAnalysis.argmax l < length l)%nat
  /\ (forall j, (j < length l)%nat -> nth j l 0 <= nth (RunAnalysis.argmax l) l 0)
  /\ (forall j, (j < RunAnalysis.argmax l)%nat ->
                nth j l 0 < nth (RunAnalysis.argmax l) l 0).
Proof.
  destruct l as [|x xs]; [congruence|]. intros _.
  apply (argmax_from_spec xs [x] (x :: xs) 0%nat).
  - reflexivity.
  - cbn. lia.
  - intros j Hj. cbn in Hj. replace j with 0%nat by lia. apply Qle_refl.
  - intros j Hj. lia.
Qed.
End ArgmaxFacts.

Section ClusterCount.
Open Scope Q_scope.

Context {Frame Model Labels : Type}.
Variable len : Frame -> N.
Variable sample : N -> Frame -> Frame.
Variable fit : nat -> Frame -> Model.
Variable predict : Model -> Frame -> Labels.
Variable silhouette_score : Frame -> Labels -> Q.

Local Abbreviation score_of :=
  (RunAnalysis.score_of len sample fit predict silhouette_score).

(** The loop fills both lists in the order of [K_range]. *)
Lemma search_lists (inertia_ : Model -> Q) (X : Frame) :
  RunAnalysis.search len sample fit inertia_ predict silhouette_score X
  = (map (fun k => inertia_ (fit k X)) RunAnalysis.K_range,
     map (score_of X) RunAnalysis.K_range).
Proof.
  unfold RunAnalysis.search.
  change (map (fun k => inertia_ (fit k X)) RunAnalysis.K_range)
    with ([] ++ map (fun k => inertia_ (fit k X)) RunAnalysis.K_range).
  change (map (score_of X) RunAnalysis.K_range)
    with ([] ++ map (score_of X) RunAnalysis.K_range).
  generalize (@nil Q) at 1 3. generalize (@nil Q).
  induction RunAnalysis.K_range as [|k ks IH]; intros sil inertia.
  - cbn. rewrite !app_nil_r. reflexivity.
  - cbn [foldl map]. unfold RunAnalysis.search_step at 2.
    rewrite IH. rewrite <- !app_assoc. reflexivity.
Qed.

Lemma optimal_k_argmax (inertia_ : Model -> Q) (X : Frame) :
  RunAnalysis.optimal_k len sample fit inertia_ predict silhouette_score X
  = (2 + RunAnalysis.argmax (map (score_of X) RunAnalysis.K_range))%nat.
Proof.
  unfold RunAnalysis.optimal_k. rewrite search_lists.
  destruct (argmax_spec (map (score_of X) RunAnalysis.K_range)) as (Hlt & _);
    [discriminate|].
  rewrite length_map in Hlt. unfold RunAnalysis.K_range at 2.
  apply seq_nth. exact Hlt.
Qed.

Lemma score_nth (X : Frame) (j : nat) :
  (j < 9)%nat ->
  nth j (map (score_of X) RunAnalysis.K_range) 0 = score_of X (2 + j).
Proof.
  intros Hj. rewrite (nth_indep _ 0 (score_of X 0%nat)).
  - rewrite map_nth. unfold RunAnalysis.K_range. rewrite seq_nth by assumption.
    reflexivity.
  - rewrite length_map. unfold RunAnalysis.K_range. rewrite length_seq. assumption.
Qed.

(** C9.  The cluster count chosen by the search, with which the final model
    is trained, lies in [2, 10]; no candidate of that range has a higher
    silhouette score on the sample of at most 10000 rows; every smaller
    candidate has a strictly lower one, so that ties go to the smallest k;
    and the inertia curve has no part in the choice. *)
Theorem C9_optimal_k (inertia_ : Model -> Q) (X : Frame) :
  let k := RunAnalysis.optimal_k len sample fit inertia_ predict silhouette_score X in
  (2 <= k <= 10)%nat
  /\ (forall k', (2 <= k' <= 10)%nat -> score_of X k' <= score_of X k)
  /\ (forall k', (2 <= k' < k)%nat -> score_of X k' < score_of X k)
  /\ (forall inertia' : Model -> Q,
        RunAnalysis.optimal_k len sample fit inertia' predict silhouette_score X = k)
  /\ RunAnalysis.sample_size len X = N.min 10000 (len X)
  /\ RunAnalysis.trained_k len sample fit inertia_ predict silhouette_score X (len X)
     = Some k.
Proof.
  intros k. subst k. rewrite optimal_k_argmax.
  destruct (argmax_spec (map (score_of X) RunAnalysis.K_range))
    as (Hlt & Hmax & Hfirst); [discriminate|].
  assert (Hlen : length (map (score_of X) RunAnalysis.K_range) = 9%nat)
    by (rewrite length_map; reflexivity).
  rewrite Hlen in Hlt, Hmax.
  set (r := RunAnalysis.argmax (map (score_of X) RunAnalysis.K_range)) in *.
  split; [lia|]. split; [|split; [|split; [|split]]].
  - intros k' Hk'. specialize (Hmax (k' - 2)%nat ltac:(lia)).
    rewrite !score_nth in Hmax by lia.
    replace (2 + (k' - 2))%nat with k' in Hmax by lia. assumption.
  - intros k' Hk'. specialize (Hfirst (k' - 2)%nat ltac:(lia)).
    rewrite !score_nth in Hfirst by lia.
    replace (2 + (k' - 2))%nat with k' in Hfirst by lia. assumption.
  - intros inertia'. rewrite optimal_k_argmax. reflexivity.
  - reflexivity.
  - unfold RunAnalysis.trained_k. rewrite N.eqb_refl, optimal_k_argmax. reflexivity.
Qed.
End ClusterCount.

Section ClusterCountExample.
Open Scope Q_scope.
Import Examples.

Lemma C9_optimal_k_witness :
  optimal_k_of inertia_table = 3%nat
  /\ silhouette_table 2 < silhouette_table (optimal_k_of inertia_table)
  /\ silhouette_table 4 <= silhouette_table (optimal_k_of inertia_table)
  /\ optimal_k_of (fun _ => 0) = optimal_k_of inertia_table.
Proof.
  pose proof (C9_optimal_k (Frame := unit) (Model := nat) (Labels := nat)
                (fun _ => 25000%N) (fun _ X => X) (fun k _ => k)
                (fun kmeans _ => kmeans) (fun _ labels => silhouette_table labels)
                inertia_table tt) as (_ & Hmax & Hfirst & Hinertia & _ & _).
  assert (Hk : optimal_k_of inertia_table = 3%nat) by (vm_compute; reflexivity).
  split; [exact Hk|]. split; [|split].
  - apply (Hfirst 2%nat). fold (optimal_k_of inertia_table). rewrite Hk. lia.
  - apply (Hmax 4%nat). lia.
  - apply (Hinertia (fun _ => 0)).
Defined.
End ClusterCountExample.

(** * Further properties of the code *)

(** ** The scoring view: defaults, malformed fields, age *)

Section ViewFields.
Open Scope Q_scope.

Variable float_of_str : string -> option Q.
Variable str_of_float : Q -> string.

Local Abbreviation predict := (App.predict float_of_str str_of_float).
Local Abbreviation prepare := (App.prepare float_of_str).
Local Abbreviation validate_age := (App.validate_age float_of_str).

Lemma default_Some {A : Type} (d v : A) : default d (Some v) = v.
Proof. reflexivity. Qed.

(** [prepare] reads the request through four lookups only. *)
Lemma prepare_lookups (m : App.KMeans) (sc : App.MinMaxScaler)
    (d1 d2 : gmap string Py.value) :
  d1 !! "income" = d2 !! "income" ->
  d1 !! "cost" = d2 !! "cost" ->
  d1 !! "bedrooms" = d2 !! "bedrooms" ->
  d1 !! "age" = d2 !! "age" ->
  prepare m sc d1 = prepare m sc d2.
Proof.
  intros Hi Hc Hb Ha. unfold App.prepare. rewrite Hi, Hc, Hb, Ha. reflexivity.
Qed.

Lemma predict_lookups (model : option App.KMeans) (scaler : option App.MinMaxScaler)
    (d1 d2 : gmap string Py.value) :
  d1 !! "income" = d2 !! "income" ->
  d1 !! "cost" = d2 !! "cost" ->
  d1 !! "bedrooms" = d2 !! "bedrooms" ->
  d1 !! "age" = d2 !! "age" ->
  predict model scaler d1 = predict model scaler d2.
Proof.
  intros Hi Hc Hb Ha. unfold App.predict, App.predict_try.
  destruct model as [m|], scaler as [sc|]; try reflexivity.
  rewrite (prepare_lookups m sc d1 d2 Hi Hc Hb Ha). reflexivity.
Qed.

(** X1.  A request that lacks the income, the cost or the bedrooms key is
    answered exactly as the same request carrying 50000, 1000 or 3 under that
    key, whatever the artifacts and the other fields are. *)
Theorem missing_fields_take_defaults (model : option App.KMeans)
    (scaler : option App.MinMaxScaler) (data : gmap string Py.value) :
  (data !! "income" = None ->
     predict model scaler (<["income" := Py.VInt 50000]> data)
     = predict model scaler data)
  /\ (data !! "cost" = None ->
     predict model scaler (<["cost" := Py.VInt 1000]> data)
     = predict model scaler data)
  /\ (data !! "bedrooms" = None ->
     predict model scaler (<["bedrooms" := Py.VInt 3]> data)
     = predict model scaler data).
Proof.
  split; [|split]; intros Hnone;
    unfold App.predict, App.predict_try, App.prepare;
    destruct model as [m|], scaler as [sc|]; try reflexivity;
    rewrite ?lookup_insert_eq, ?lookup_insert_ne by discriminate;
    rewrite Hnone; reflexivity.
Qed.

(** X2.  Income, cost and bedrooms are not forgiven: when [float] refuses
    the value under one of these keys (an explicit null, an array, a text
    that is no number), the request fails with status 400, and for the
    income with the very exception [float] raised. *)
Theorem malformed_number_fails (m : App.KMeans) (sc : App.MinMaxScaler)
    (data : gmap string Py.value) (key : string) (v : Py.value) (e : Py.exn) :
  key = "income" \/ key = "cost" \/ key = "bedrooms" ->
  data !! key = Some v ->
  Py.float float_of_str v = Py.Raise e ->
  (exists e', predict (Some m) (Some sc) data = App.BadRequest e')
  /\ App.status_code (predict (Some m) (Some sc) data) = 400%Z
  /\ (key = "income" -> predict (Some m) (Some sc) data = App.BadRequest e).
Proof.
  intros Hkey Hv Hraise.
  assert (Hbad : exists e', predict (Some m) (Some sc) data = App.BadRequest e'
                            /\ (key = "income" -> e' = e)).
  { unfold App.predict, App.predict_try, App.prepare.
    unfold mbind, Py.result_bind, Py.bind.
    destruct Hkey as [-> | [-> | ->]].
    - rewrite Hv, default_Some, Hraise. exists e. split; [reflexivity|auto].
    - destruct (Py.float float_of_str (default (Py.VInt 50000) (data !! "income")));
        [|eexists; split; [reflexivity|discriminate]].
      rewrite Hv, default_Some, Hraise.
      eexists; split; [reflexivity|discriminate].
    - destruct (Py.float float_of_str (default (Py.VInt 50000) (data !! "income")));
        [|eexists; split; [reflexivity|discriminate]].
      destruct (Py.float float_of_str (default (Py.VInt 1000) (data !! "cost")));
        [|eexists; split; [reflexivity|discriminate]].
      rewrite Hv, default_Some, Hraise.
      eexists; split; [reflexivity|discriminate]. }
  destruct Hbad as (e' & He' & Hinc).
  split; [exists e'; assumption|]. split.
  - rewrite He'. reflexivity.
  - intros Hk. rewrite He', (Hinc Hk). reflexivity.
Qed.

(** The response does not depend on the raw age when no age anomaly is
    raised. *)
Lemma predict_age_quiet (m : App.KMeans) (sc : App.MinMaxScaler)
    (d1 d2 : gmap string Py.value) (a : App.AgeCheck) :
  d1 !! "income" = d2 !! "income" ->
  d1 !! "cost" = d2 !! "cost" ->
  d1 !! "bedrooms" = d2 !! "bedrooms" ->
  validate_age (default Py.VNone (d1 !! "age")) = Py.Return a ->
  App.age_anomaly a = false ->
  (exists a', validate_age (default Py.VNone (d2 !! "age")) = Py.Return a'
              /\ App.final_age a' = App.final_age a
              /\ App.age_anomaly a' = false) ->
  predict (Some m) (Some sc) d1 = predict (Some m) (Some sc) d2.
Proof.
  intros Hi Hc Hb Ha Hquiet (a' & Ha' & Hage & Hquiet').
  unfold App.predict, App.predict_try, App.prepare.
  unfold mbind, mret, Py.result_bind, Py.result_ret, Py.bind.
  rewrite Hi, Hc, Hb, Ha, Ha', Hage.
  destruct (Py.float float_of_str (default (Py.VInt 50000) (d2 !! "income")));
    [|reflexivity].
  destruct (Py.float float_of_str (default (Py.VInt 1000) (d2 !! "cost")));
    [|reflexivity].
  destruct (Py.float float_of_str (default (Py.VInt 3) (d2 !! "bedrooms")));
    [|reflexivity].
  destruct (App.build_features _ _ _ _) as [vec burden].
  destruct (App.transform sc vec); [|reflexivity].
  unfold App.respond.
  cbn [App.primary_cluster App.age App.age_anomaly App.raw_age App.safe_income
       App.safe_cost App.primary_burden App.primary_vec].
  rewrite Hquiet, Hquiet'. reflexivity.
Qed.

(** X3.  An age that is null, empty, or a text that [float] rejects with
    [ValueError] is answered exactly as the same request without the age
    key. *)
Theorem unusable_age_is_ignored (m : App.KMeans) (sc : App.MinMaxScaler)
    (data : gmap string Py.value) (raw : Py.value) :
  data !! "age" = Some raw ->
  raw = Py.VNone \/ raw = Py.VStr ""
    \/ (exists s, raw = Py.VStr s /\ float_of_str s = None) ->
  predict (Some m) (Some sc) data
  = predict (Some m) (Some sc) (delete "age" data).
Proof.
  intros Hraw Hcase.
  apply (predict_age_quiet m sc data (delete "age" data)
           {| App.final_age := App.AGE_MEDIAN; App.age_anomaly := false;
              App.age_log := ["LOG: age_defaulted_missing"] |}).
  - rewrite lookup_delete_ne by discriminate. reflexivity.
  - rewrite lookup_delete_ne by discriminate. reflexivity.
  - rewrite lookup_delete_ne by discriminate. reflexivity.
  - rewrite Hraw, default_Some.
    destruct Hcase as [-> | [-> | (s & -> & Hs)]].
    + apply validate_age_missing. left. reflexivity.
    + apply validate_age_missing. right. reflexivity.
    + apply validate_age_unparsable_str. assumption.
  - reflexivity.
  - rewrite lookup_delete_eq. eexists. split; [reflexivity|].
    split; reflexivity.
Qed.

(** X4.  An age that parses to a number outside [18, 110] changes the
    response of the same request without age in the anomaly fields only: the
    flag is set and the reason that quotes the raw value is put in front;
    cluster, ratio, label and recommendation stay, and so does any error. *)
Theorem out_of_range_age_adds_reason (m : App.KMeans) (sc : App.MinMaxScaler)
    (data : gmap string Py.value) (raw : Py.value) (q : Q) :
  data !! "age" = Some raw ->
  raw <> Py.VNone -> raw <> Py.VStr "" ->
  Py.float float_of_str raw = Py.Return q ->
  q < 18 \/ 110 < q ->
  match predict (Some m) (Some sc) (delete "age" data) with
  | App.Success b0 =>
      predict (Some m) (Some sc) data
      = App.Success
          {| App.cluster := App.cluster b0;
             App.cost_burden_ratio := App.cost_burden_ratio b0;
             App.cost_burden_label := App.cost_burden_label b0;
             App.recommendation := App.recommendation b0;
             App.anomaly_flag := true;
             App.anomaly_reasons :=
               ("Age " +:+ Py.str str_of_float raw
                +:+ " invalid (out of range). used median.")
               :: App.anomaly_reasons b0 |}
  | r => predict (Some m) (Some sc) data = r
  end.
Proof.
  intros Hraw Hnone Hempty Hfloat Hrange.
  pose proof (validate_age_parsed float_of_str raw q Hnone Hempty Hfloat) as Hval.
  replace (Qltb q 18 || Qltb 110 q) with true in Hval.
  2:{ symmetry. apply orb_true_iff.
      destruct Hrange as [H|H]; [left|right]; apply Qltb_lt; assumption. }
  unfold App.predict, App.predict_try, App.prepare.
  unfold mbind, mret, Py.result_bind, Py.result_ret, Py.bind.
  rewrite !lookup_delete_ne by discriminate.
  rewrite lookup_delete_eq, Hraw, default_Some, Hval.
  change (default Py.VNone None) with Py.VNone.
  change (App.validate_age float_of_str Py.VNone)
    with (Py.Return {| App.final_age := App.AGE_MEDIAN; App.age_anomaly := false;
                       App.age_log := ["LOG: age_defaulted_missing"] |}).
  cbn [App.final_age].
  destruct (Py.float float_of_str (default (Py.VInt 50000) (data !! "income")));
    [|reflexivity].
  destruct (Py.float float_of_str (default (Py.VInt 1000) (data !! "cost")));
    [|reflexivity].
  destruct (Py.float float_of_str (default (Py.VInt 3) (data !! "bedrooms")));
    [|reflexivity].
  destruct (App.build_features _ _ _ _) as [vec burden].
  destruct (App.transform sc vec); [|reflexivity].
  unfold App.respond.
  cbn [App.primary_cluster App.age App.age_anomaly App.raw_age App.safe_income
       App.safe_cost App.primary_burden App.primary_vec].
  destruct (App.cluster_policy_map !! _); reflexivity.
Qed.

(** X5.  Whatever the raw age, when the age block returns, the age that
    enters the feature vector is either the median, or the number that
    [float] read, and then this number is neither below 18 nor above 110 and
    no anomaly is raised; an anomaly is raised only together with the
    median, and exactly for a value, neither null nor empty, that parses to
    a number below 18 or above 110. *)
Theorem validated_age_in_range (raw : Py.value) (a : App.AgeCheck) :
  validate_age raw = Py.Return a ->
  (App.final_age a = App.AGE_MEDIAN
   \/ exists q, Py.float float_of_str raw = Py.Return q
                /\ App.final_age a = q /\ ~ q < 18 /\ ~ 110 < q
                /\ App.age_anomaly a = false)
  /\ (App.age_anomaly a = true -> App.final_age a = App.AGE_MEDIAN)
  /\ (App.age_anomaly a = true <->
      raw <> Py.VNone /\ raw <> Py.VStr ""
      /\ exists q, Py.float float_of_str raw = Py.Return q /\ (q < 18 \/ 110 < q)).
Proof.
  unfold App.validate_age.
  destruct (Py.is_None raw || Py.eq_empty_str raw) eqn:Hmissing.
  - intros H. injection H as <-. cbn. split; [left; reflexivity|].
    split; [discriminate|]. split; [discriminate|].
    intros (Hnone & Hempty & _). apply orb_true_iff in Hmissing as [H|H].
    + destruct raw; try discriminate. congruence.
    + destruct raw; try discriminate. cbn in H.
      destruct (decide (s = "")); [subst; congruence|discriminate].
  - apply orb_false_iff in Hmissing as [Hn He].
    assert (Hnone : raw <> Py.VNone) by (intros ->; discriminate).
    assert (Hempty : raw <> Py.VStr "") by (intros ->; discriminate).
    destruct (Py.float float_of_str raw) as [q|e] eqn:Hfloat.
    + destruct (Qltb q 18) eqn:E1; [|destruct (Qltb 110 q) eqn:E2]; cbn [orb];
        intros H; injection H as <-; cbn; qbool.
      * split; [left; reflexivity|].
        split; [reflexivity|].
        split; [|reflexivity]. intros _. repeat split; try assumption.
        exists q. split; [reflexivity|left; assumption].
      * split; [left; reflexivity|].
        split; [reflexivity|].
        split; [|reflexivity]. intros _. repeat split; try assumption.
        exists q. split; [reflexivity|right; assumption].
      * split.
        { right. exists q. repeat split; try reflexivity; lra. }
        split; [discriminate|]. split; [discriminate|].
        intros (_ & _ & q' & Hq' & Hout). injection Hq' as <-. lra.
    + destruct e; [|discriminate].
      intros H. injection H as <-. cbn. split; [left; reflexivity|].
        split; [discriminate|]. split; [discriminate|].
      intros (_ & _ & q' & Hq' & _). discriminate.
Qed.
End ViewFields.

Section ViewFieldsExamples.
Open Scope Q_scope.
Import Examples.

Lemma missing_fields_take_defaults_witness :
  predict (Some model4) (Some scaler)
    (<["income" := Py.VInt 50000]> (request [("cost", Py.VInt 1200)]))
  = predict (Some model4) (Some scaler) (request [("cost", Py.VInt 1200)]).
Proof.
  unfold predict.
  refine (proj1 (missing_fields_take_defaults float_of_str str_of_float
                   (Some model4) (Some scaler)
                   (request [("cost", Py.VInt 1200)])) _).
  vm_compute. reflexivity.
Defined.

Lemma malformed_number_fails_witness :
  predict (Some model4) (Some scaler)
    (request [("income", Py.VNone); ("cost", Py.VInt 1200)])
  = App.BadRequest Py.TypeError.
Proof.
  unfold predict.
  refine (proj2 (proj2 (malformed_number_fails float_of_str str_of_float
                          model4 scaler
                          (request [("income", Py.VNone); ("cost", Py.VInt 1200)])
                          "income" Py.VNone Py.TypeError _ _ _)) _).
  - left. reflexivity.
  - vm_compute. reflexivity.
  - reflexivity.
  - reflexivity.
Defined.

Lemma unusable_age_is_ignored_witness :
  predict (Some model4) (Some scaler)
    (request [("income", Py.VInt 45000); ("age", Py.VStr "abc")])
  = predict (Some model4) (Some scaler)
      (delete "age" (request [("income", Py.VInt 45000); ("age", Py.VStr "abc")])).
Proof.
  unfold predict.
  refine (unusable_age_is_ignored float_of_str str_of_float model4 scaler
            (request [("income", Py.VInt 45000); ("age", Py.VStr "abc")])
            (Py.VStr "abc") _ _).
  - vm_compute. reflexivity.
  - right. right. exists "abc". split; [reflexivity|vm_compute; reflexivity].
Defined.

Lemma out_of_range_age_adds_reason_witness :
  match App.predict float_of_str str_of_float (Some model4) (Some scaler)
          (delete "age" (request [("income", Py.VInt 45000); ("age", Py.VInt 140)]))
  with
  | App.Success b0 =>
      App.predict float_of_str str_of_float (Some model4) (Some scaler)
        (request [("income", Py.VInt 45000); ("age", Py.VInt 140)])
      = App.Success
          {| App.cluster := App.cluster b0;
             App.cost_burden_ratio := App.cost_burden_ratio b0;
             App.cost_burden_label := App.cost_burden_label b0;
             App.recommendation := App.recommendation b0;
             App.anomaly_flag := true;
             App.anomaly_reasons :=
               ("Age " +:+ Py.str str_of_float (Py.VInt 140)
                +:+ " invalid (out of range). used median.")
               :: App.anomaly_reasons b0 |}
  | r => App.predict float_of_str str_of_float (Some model4) (Some scaler)
           (request [("income", Py.VInt 45000); ("age", Py.VInt 140)]) = r
  end.
Proof.
  refine (out_of_range_age_adds_reason float_of_str str_of_float model4 scaler
            (request [("income", Py.VInt 45000); ("age", Py.VInt 140)])
            (Py.VInt 140) 140 _ _ _ _ _).
  - vm_compute. reflexivity.
  - discriminate.
  - discriminate.
  - reflexivity.
  - right. reflexivity.
Defined.

Lemma validated_age_in_range_witness :
  exists a, App.validate_age float_of_str (Py.VStr "17.5") = Py.Return a
            /\ App.age_anomaly a = true
            /\ App.final_age a = App.AGE_MEDIAN.
Proof.
  eassert (H : App.validate_age float_of_str (Py.VStr "17.5") = Py.Return _)
    by (vm_compute; reflexivity).
  eexists. split; [exact H|]. split; [reflexivity|].
  exact (proj1 (proj2 (validated_age_in_range float_of_str _ _ H)) eq_refl).
Defined.
End ViewFieldsExamples.

(** ** The scoring view: health, heuristic, labels and codes *)

Section ViewLogic.
Open Scope Q_scope.

Lemma Qdiv_lt_iff (x d t : Q) : 0 < d -> (x / d < t <-> x < t * d).
Proof.
  intros Hd. assert (E : x == (x / d) * d) by (field; lra).
  split; intros H.
  - rewrite E. nra.
  - rewrite E in H. nra.
Qed.

Lemma Qlt_div_iff (x d t : Q) : 0 < d -> (t < x / d <-> t * d < x).
Proof.
  intros Hd. assert (E : x == (x / d) * d) by (field; lra).
  split; intros H.
  - rewrite E. nra.
  - rewrite E in H. nra.
Qed.

(** X6.  The health view looks at the data frame and the model, the
    scoring view at the model and the scaler: with frame and model loaded
    and the scaler missing, health reports "healthy" while every request
    is answered "Model not loaded"; with model and scaler loaded and the
    frame missing, health reports "degraded" while no request is. *)
Theorem health_ignores_scaler (float_of_str : string -> option Q)
    (str_of_float : Q -> string) (g : Service.Globals)
    (data : gmap string Py.value) :
  ((Service.health g).1 = "healthy"
   <-> is_Some (Service.df g) /\ is_Some (Service.model g))
  /\ (is_Some (Service.df g) -> is_Some (Service.model g) ->
      Service.scaler g = None ->
      (Service.health g).1 = "healthy"
      /\ Service.predict float_of_str str_of_float g data = App.ModelNotLoaded)
  /\ (Service.df g = None -> is_Some (Service.model g) ->
      is_Some (Service.scaler g) ->
      (Service.health g).1 = "degraded" /\ (Service.health g).2 = O
      /\ Service.predict float_of_str str_of_float g data <> App.ModelNotLoaded).
Proof.
  unfold Service.health, Service.predict, App.predict.
  destruct g as [[rows|] [m|] [sc|]]; cbn [Service.df Service.model Service.scaler fst snd].
  all: split; [split; [intros H; first [discriminate H | split; eexists; reflexivity]
                      | intros [[? ?] [? ?]]; first [discriminate | reflexivity]]|].
  all: split; [intros [? ?] [? ?] ?; first [discriminate | split; reflexivity]|].
  all: intros ? [? ?] [? ?]; try discriminate.
  split; [reflexivity|]. split; [reflexivity|].
  destruct (App.predict_try _ _ _ _ _) as [r|e] eqn:E; [|discriminate].
  unfold App.predict_try in E. unfold mbind, mret, Py.result_bind, Py.result_ret, Py.bind in E.
  destruct (App.prepare float_of_str m sc data) as [st|]; [|discriminate].
  injection E as <-. unfold App.respond.
  destruct (App.cluster_policy_map !! _); discriminate.
Qed.

(** X7.  The monthly-income heuristic fires exactly when the income is
    below 6000, the cost at least 800 and twelve times the cost above twice
    [max(income, 1)]; the third condition is implied by the first two as
    soon as the income is below 4800. *)
Theorem possible_monthly_iff (income cost : Q) :
  (App.possible_monthly income cost (App.burden_of income cost) = true
   <-> income < 6000 /\ 800 <= cost /\ 2 * Py.max income 1 < cost * 12)
  /\ (income < 4800 -> 800 <= cost ->
      App.possible_monthly income cost (App.burden_of income cost) = true).
Proof.
  assert (Hge := py_max_ge_1 income).
  assert (Hburden : 2.0 < App.burden_of income cost
                    <-> 2 * Py.max income 1 < cost * 12).
  { unfold App.burden_of. rewrite Qlt_div_iff by lra. split; intros H; lra. }
  assert (Hiff : App.possible_monthly income cost (App.burden_of income cost) = true
                 <-> income < 6000 /\ 800 <= cost /\ 2 * Py.max income 1 < cost * 12).
  { unfold App.possible_monthly.
    rewrite !andb_true_iff, !Qltb_lt, Qleb_le, Hburden. tauto. }
  split; [exact Hiff|].
  intros Hinc Hcost. apply Hiff. repeat split; try lra.
  unfold Py.max. destruct (Qltb income 1) eqn:E; qbool; lra.
Qed.

Lemma possible_monthly_iff_witness :
  App.possible_monthly 1300 800 (App.burden_of 1300 800) = true.
Proof.
  apply (possible_monthly_iff 1300 800); lra.
Defined.

(** X9.  The status code of the feature vector and the label of the
    response are cut from the same ratio: code 1 goes with "Affordable",
    code 3 with "High", and "High" never goes with code 1; they part only
    at code 2, which covers both labels. *)
Theorem status_code_and_label (inc cst ag beds : Q) :
  let vec := (App.build_features inc cst ag beds).1 in
  (nth 5 vec 0 = 1 -> App.burden_label vec = "Affordable")
  /\ (nth 5 vec 0 = 3 -> App.burden_label vec = "High")
  /\ (App.burden_label vec = "High" -> nth 5 vec 0 = 2 \/ nth 5 vec 0 = 3)
  /\ (nth 5 vec 0 = 1 \/ nth 5 vec 0 = 2 \/ nth 5 vec 0 = 3).
Proof.
  intros vec. subst vec. unfold App.burden_label.
  cbn [App.build_features fst nth]. unfold App.status_of.
  destruct (Qltb (App.burden_of inc cst) 0.3) eqn:E1;
    [|destruct (Qleb (App.burden_of inc cst) 0.5) eqn:E2];
    destruct (Qltb 0.3 (App.burden_of inc cst)) eqn:E3; qbool;
    repeat split; intros; try discriminate; try reflexivity; try lra; auto.
Qed.

Lemma status_code_and_label_witness :
  App.burden_label (App.build_features 45000 250 35 3).1 = "Affordable".
Proof.
  apply (status_code_and_label 45000 250 35 3). reflexivity.
Defined.

(** The income ranges of the four AMI buckets. *)
Lemma ami_cat_cases (inc : Q) :
  (App.ami_cat_of inc = 1 /\ inc < 21000)
  \/ (App.ami_cat_of inc = 2 /\ 21000 <= inc < 35000)
  \/ (App.ami_cat_of inc = 3 /\ 35000 <= inc < 56000)
  \/ (App.ami_cat_of inc = 4 /\ 56000 <= inc).
Proof.
  assert (Hr : forall t, Qltb (inc / 70000) t = true <-> inc < t * 70000).
  { intros t. rewrite Qltb_lt. apply Qdiv_lt_iff. lra. }
  assert (Hr' : forall t, Qltb (inc / 70000) t = false <-> t * 70000 <= inc).
  { intros t. rewrite Qltb_ge.
    pose proof (Qdiv_lt_iff inc 70000 t ltac:(lra)) as [H1 H2].
    split; intros H.
    - apply Qnot_lt_le. intros Hlt. apply H2 in Hlt. lra.
    - apply Qnot_lt_le. intros Hlt. apply H1 in Hlt. lra. }
  unfold App.ami_cat_of.
  destruct (Qltb (inc / 70000) 0.3) eqn:A1.
  { left. apply Hr in A1. split; [reflexivity|lra]. }
  apply Hr' in A1.
  destruct (Qltb (inc / 70000) 0.5) eqn:A2.
  { right. left. apply Hr in A2. split; [reflexivity|lra]. }
  apply Hr' in A2.
  destruct (Qltb (inc / 70000) 0.8) eqn:A3.
  { right. right. left. apply Hr in A3. split; [reflexivity|lra]. }
  apply Hr' in A3. right. right. right. split; [reflexivity|lra].
Qed.

(** X10.  The structure code always equals the tenure code; the AMI bucket
    is one of 1 to 4 and never falls when the income rises; and every income
    coded as owner (above 65000) lies in bucket 4. *)
Theorem tenure_and_ami_codes (inc inc' cst ag beds : Q) :
  let vec := (App.build_features inc cst ag beds).1 in
  nth 10 vec 0 = nth 11 vec 0
  /\ (nth 11 vec 0 = 1 <-> 65000 < inc)
  /\ nth 14 vec 0 = App.ami_cat_of inc
  /\ (App.ami_cat_of inc = 1 \/ App.ami_cat_of inc = 2
      \/ App.ami_cat_of inc = 3 \/ App.ami_cat_of inc = 4)
  /\ (inc <= inc' -> App.ami_cat_of inc <= App.ami_cat_of inc')
  /\ (65000 < inc -> nth 14 vec 0 = 4).
Proof.
  intros vec. subst vec. cbn [App.build_features fst nth].
  split; [reflexivity|]. split.
  { destruct (Qltb 65000 inc) eqn:E; qbool; split; intros H;
      try reflexivity; try assumption; try discriminate; lra. }
  split; [reflexivity|].
  pose proof (ami_cat_cases inc) as Hc. pose proof (ami_cat_cases inc') as Hc'.
  split; [tauto|]. split.
  - intros Hle.
    destruct Hc as [[-> ?]|[[-> ?]|[[-> ?]|[-> ?]]]];
      destruct Hc' as [[-> ?]|[[-> ?]|[[-> ?]|[-> ?]]]]; lra.
  - intros Hown.
    destruct Hc as [[_ ?]|[[_ ?]|[[_ ?]|[E ?]]]]; try lra. exact E.
Qed.

Lemma tenure_and_ami_codes_witness :
  App.ami_cat_of 30000 <= App.ami_cat_of 66000
  /\ nth 14 (App.build_features 66000 1500 35 3).1 0 = 4.
Proof.
  pose proof (tenure_and_ami_codes 30000 66000 1500 35 3) as (_ & _ & _ & _ & Hmono & _).
  pose proof (tenure_and_ami_codes 66000 66000 1500 35 3) as (_ & _ & _ & _ & _ & Howner).
  split; [apply Hmono; lra|apply Howner; lra].
Defined.
End ViewLogic.

(** ** The anomaly list, in the view and in the stand-alone logic *)

Section AnomalyLists.
Open Scope Q_scope.

Variable float_of_str : string -> option Q.
Variable str_of_float : Q -> string.

(** X8.  In every successful response the aggregate flag is set exactly
    when the list of reasons is non-empty; the list holds at most the age
    reason, which quotes the raw age of the request, followed by the
    monthly-income reason, and nothing else. *)
Theorem anomaly_reasons_shape (m : App.KMeans) (sc : App.MinMaxScaler)
    (data : gmap string Py.value) (b : App.Prediction) :
  App.predict float_of_str str_of_float (Some m) (Some sc) data = App.Success b ->
  let age_reason :=
    "Age " +:+ Py.str str_of_float (default Py.VNone (data !! "age"))
    +:+ " invalid (out of range). used median." in
  let monthly_reason := "Potential monthly income entry detected." in
  (App.anomaly_flag b = true <-> App.anomaly_reasons b <> [])
  /\ (App.anomaly_reasons b = []
      \/ App.anomaly_reasons b = [age_reason]
      \/ App.anomaly_reasons b = [monthly_reason]
      \/ App.anomaly_reasons b = [age_reason; monthly_reason]).
Proof.
  intros H age_reason monthly_reason.
  apply predict_Success_inv in H as (st & Hprep & Hresp).
  apply prepare_Return in Hprep as (_ & _ & Hraw & _).
  apply respond_Success in Hresp as (_ & _ & _ & _ & _ & _ & Hreasons & Hflag).
  rewrite Hflag, Hreasons, Hraw. unfold App.anomalies_of.
  destruct (App.age_anomaly (App.age st)), (App.possible_monthly _ _ _);
    cbn; (split; [split; congruence|]); auto.
Qed.

(** X11.  The stand-alone logic, when its artifacts are loaded and the
    scaler accepts the vector, reports the ratio [cost * 12 / max(income, 1)];
    its flag stays off exactly when the ratio is at most 2.0 and the income
    above 6000; the label "Extreme burden" goes exactly with the reason
    "Extremely high cost burden (>200%)", and the low-income reason exactly
    with an income of at most 6000.  Without an artifact it returns [None]. *)
Theorem stand_alone_outcome (m : App.KMeans) (sc : App.MinMaxScaler)
    (income cost age bedrooms : Q) (o : TestPrediction.Outcome) :
  TestPrediction.predict_logic (Some m) (Some sc) income cost age bedrooms
    = Py.Return (Some o) ->
  TestPrediction.cost_burden_ratio o = App.burden_of income cost
  /\ (TestPrediction.anomaly_flag o = false
      <-> App.burden_of income cost <= 2.0 /\ 6000 < income)
  /\ (TestPrediction.cost_burden_label o = "Extreme burden"
      <-> "Extremely high cost burden (>200%)" ∈ TestPrediction.anomaly_reasons o)
  /\ ("Extremely low income (<= $6000)" ∈ TestPrediction.anomaly_reasons o
      <-> income <= 6000)
  /\ TestPrediction.predict_logic None (Some sc) income cost age bedrooms
     = Py.Return None
  /\ TestPrediction.predict_logic (Some m) None income cost age bedrooms
     = Py.Return None.
Proof.
  unfold TestPrediction.predict_logic.
  destruct (App.transform sc _) as [scaled|]; [|discriminate].
  cbn [mbind Py.result_bind Py.bind mret Py.result_ret].
  intros H. injection H as <-.
  cbn [TestPrediction.cost_burden_ratio TestPrediction.anomaly_reasons
       TestPrediction.anomaly_flag TestPrediction.cost_burden_label].
  fold (App.burden_of income cost).
  unfold TestPrediction.anomalies_of, TestPrediction.label_of.
  split; [reflexivity|].
  destruct (Qltb 2.0 (App.burden_of income cost)) eqn:E1,
    (Qleb income 6000) eqn:E2; qbool; cbn [app length Nat.ltb Nat.leb].
  all: repeat split; intros; try reflexivity; try lra; try discriminate;
    try (apply list_elem_of_here); try (apply list_elem_of_further, list_elem_of_here).
  all: repeat match goal with
       | H : _ ∈ [] |- _ => inversion H
       | H : _ ∈ _ :: _ |- _ => apply elem_of_cons in H as [H | H]; try discriminate H
       | H : _ /\ _ |- _ => destruct H
       end; try lra.
  all: destruct (Qltb 0.5 (App.burden_of income cost)),
         (Qltb 0.3 (App.burden_of income cost)); try discriminate.
Qed.

(** X12.  The two copies of the scoring logic compute the same ratio and
    agree on which requests are "Affordable"; and whenever the heuristic of
    the view fires, the stand-alone logic raises both of its extreme-value
    flags, and labels the request "Extreme burden". *)
Theorem view_and_stand_alone_logic (income cost age bedrooms : Q) :
  let burden := App.burden_of income cost in
  (TestPrediction.label_of burden = "Affordable"
   <-> App.burden_label (App.build_features income cost age bedrooms).1
       = "Affordable")
  /\ (App.possible_monthly income cost burden = true ->
      TestPrediction.anomalies_of income burden
      = ["Extremely high cost burden (>200%)"; "Extremely low income (<= $6000)"]
      /\ TestPrediction.label_of burden = "Extreme burden").
Proof.
  intros burden. split.
  - unfold App.burden_label. cbn [App.build_features fst nth]. fold burden.
    unfold TestPrediction.label_of.
    destruct (Qltb 2.0 burden) eqn:E1, (Qltb 0.5 burden) eqn:E2,
      (Qltb 0.3 burden) eqn:E3; qbool; split; intros H;
      try discriminate; try reflexivity; lra.
  - unfold App.possible_monthly, TestPrediction.anomalies_of, TestPrediction.label_of.
    rewrite !andb_true_iff. intros [[Hinc _] Hb].
    rewrite Hb. replace (Qleb income 6000) with true; [split; reflexivity|].
    symmetry. apply Qleb_le. apply Qltb_lt in Hinc. lra.
Qed.

Lemma view_and_stand_alone_logic_witness :
  TestPrediction.anomalies_of 1300 (App.burden_of 1300 800)
  = ["Extremely high cost burden (>200%)"; "Extremely low income (<= $6000)"].
Proof.
  refine (proj1 (proj2 (view_and_stand_alone_logic 1300 800 45 3) _)).
  reflexivity.
Defined.
End AnomalyLists.

Section AnomalyListsExamples.
Open Scope Q_scope.
Import Examples.

Lemma anomaly_reasons_shape_witness :
  exists b,
    App.predict float_of_str str_of_float (Some model4) (Some scaler)
      (request [("income", Py.VInt 45000); ("age", Py.VInt 140)]) = App.Success b
    /\ (App.anomaly_flag b = true <-> App.anomaly_reasons b <> []).
Proof.
  eassert (H : App.predict float_of_str str_of_float (Some model4) (Some scaler)
                 (request [("income", Py.VInt 45000); ("age", Py.VInt 140)])
               = App.Success _) by (vm_compute; reflexivity).
  eexists. split; [exact H|].
  exact (proj1 (anomaly_reasons_shape float_of_str str_of_float model4 scaler _ _ H)).
Defined.

Lemma stand_alone_outcome_witness :
  exists o,
    TestPrediction.predict_logic (Some model4) (Some scaler) 1300 800 45 3
      = Py.Return (Some o)
    /\ TestPrediction.cost_burden_ratio o = App.burden_of 1300 800.
Proof.
  eassert (H : TestPrediction.predict_logic (Some model4) (Some scaler) 1300 800 45 3
               = Py.Return (Some _)) by (vm_compute; reflexivity).
  eexists. split; [exact H|].
  exact (proj1 (stand_alone_outcome model4 scaler 1300 800 45 3 _ H)).
Defined.
End AnomalyListsExamples.

(** ** The cleaner: derived metrics *)

Section DerivedMetrics.
Open Scope Q_scope.

Lemma cost_burden_ratio_of_derived (row : gmap string Q) :
  CleanData.cost_burden_ratio_of (CleanData.derive_metrics row)
  = CleanData.cost_burden_ratio_of row.
Proof.
  unfold CleanData.cost_burden_ratio_of, CleanData.derive_metrics.
  rewrite !lookup_insert_ne by discriminate. reflexivity.
Qed.

(** X13.  The ratio stored by the cleaner never exceeds 3.0, is
    non-negative on a row whose cost and income are, and is 0 when one of the
    two columns is absent; the stored status is 1, 2 or 3, and it is 3
    exactly when the stored ratio is above 0.5. *)
Theorem derived_ratio_bounds (row : gmap string Q) :
  let r := CleanData.cost_burden_ratio_of row in
  let s := CleanData.affordability_status_of r in
  r <= 3
  /\ ((forall c z, row !! "COSTMED" = Some c -> row !! "ZINC2" = Some z ->
                   0 <= c /\ 0 <= z) -> 0 <= r)
  /\ (row !! "COSTMED" = None \/ row !! "ZINC2" = None -> r = 0)
  /\ (s = 1 \/ s = 2 \/ s = 3)
  /\ (s = 3 <-> 0.5 < r).
Proof.
  intros r s. subst s.
  assert (Hs : forall x, (App.status_of x = 1 \/ App.status_of x = 2
                          \/ App.status_of x = 3)
                         /\ (App.status_of x = 3 <-> 0.5 < x)).
  { intros x. unfold App.status_of.
    destruct (Qltb x 0.3) eqn:E1; [|destruct (Qleb x 0.5) eqn:E2]; qbool;
      (split; [auto|]); split; intros H; try discriminate; try reflexivity; lra. }
  rewrite affordability_status_eq.
  split; [|split; [|split; [|apply Hs]]]; subst r;
    unfold CleanData.cost_burden_ratio_of.
  - destruct (row !! "COSTMED") as [c|]; [|lra].
    destruct (row !! "ZINC2") as [z|]; [|lra].
    unfold CleanData.clip_upper.
    destruct (Qltb 3.0 _) eqn:E; qbool; lra.
  - intros Hpos.
    destruct (row !! "COSTMED") as [c|]; [|lra].
    destruct (row !! "ZINC2") as [z|]; [|lra].
    destruct (Hpos c z eq_refl eq_refl) as [Hc Hz].
    unfold CleanData.clip_upper.
    destruct (Qltb 3.0 _) eqn:E; [lra|].
    unfold CleanData.replace_0_1.
    destruct (Qeq_bool z 0) eqn:E0; qbool.
    + apply Qle_shift_div_l; lra.
    + apply Qle_shift_div_l; lra.
  - intros [H|H]; rewrite H; [reflexivity|].
    destruct (row !! "COSTMED"); reflexivity.
Qed.

Lemma derived_ratio_bounds_witness :
  0 <= CleanData.cost_burden_ratio_of {[ "ZINC2" := 1300; "COSTMED" := 800 ]}.
Proof.
  refine (proj1 (proj2 (derived_ratio_bounds {[ "ZINC2" := 1300; "COSTMED" := 800 ]})) _).
  intros c z Hc Hz. vm_compute in Hc, Hz.
  injection Hc as <-. injection Hz as <-. split; lra.
Defined.

(** X14.  Deriving the metrics touches the two derived columns only, and
    deriving them a second time changes nothing. *)
Theorem derive_metrics_idempotent (row : gmap string Q) :
  CleanData.derive_metrics (CleanData.derive_metrics row)
  = CleanData.derive_metrics row
  /\ (forall k, k <> "cost_burden_ratio" -> k <> "affordability_status" ->
        CleanData.derive_metrics row !! k = row !! k)
  /\ dom (CleanData.derive_metrics row)
     = {["affordability_status"]} ∪ ({["cost_burden_ratio"]} ∪ dom row).
Proof.
  split; [|split].
  - unfold CleanData.derive_metrics at 1. rewrite cost_burden_ratio_of_derived.
    unfold CleanData.derive_metrics.
    apply map_eq. intros k.
    destruct (decide (k = "affordability_status")) as [->|Hs].
    { rewrite !lookup_insert_eq. reflexivity. }
    rewrite (lookup_insert_ne _ "affordability_status" k) by congruence.
    rewrite (lookup_insert_ne _ "affordability_status" k) by congruence.
    destruct (decide (k = "cost_burden_ratio")) as [->|Hr].
    { rewrite !lookup_insert_eq. reflexivity. }
    rewrite !lookup_insert_ne by congruence. reflexivity.
  - intros k Hr Hs. unfold CleanData.derive_metrics.
    rewrite !lookup_insert_ne by congruence. reflexivity.
  - unfold CleanData.derive_metrics. rewrite !dom_insert_L. reflexivity.
Qed.

Lemma derive_metrics_idempotent_witness :
  CleanData.derive_metrics {[ "ZINC2" := 1300; "COSTMED" := 800 ]} !! "ZINC2"
  = Some 1300.
Proof.
  rewrite (proj1 (proj2 (derive_metrics_idempotent
                           {[ "ZINC2" := 1300; "COSTMED" := 800 ]})))
    by discriminate.
  reflexivity.
Defined.

(** X15.  The locality label [REGION * 10 + METRO3] tells whole-number
    region and metro codes apart as long as the metro code is a single
    digit. *)
Theorem locality_label_injective (r1 m1 r2 m2 : Z) :
  (0 <= m1 < 10)%Z -> (0 <= m2 < 10)%Z ->
  Cleaner.locality_label (inject_Z r1) (inject_Z m1)
    == Cleaner.locality_label (inject_Z r2) (inject_Z m2) ->
  r1 = r2 /\ m1 = m2.
Proof.
  intros H1 H2. unfold Cleaner.locality_label.
  change 10 with (inject_Z 10).
  rewrite <- !inject_Z_mult, <- !inject_Z_plus. intros Heq.
  apply (proj1 (inject_Z_injective _ _)) in Heq. lia.
Qed.

Lemma locality_label_injective_witness :
  3%Z = 3%Z /\ 1%Z = 1%Z.
Proof.
  apply (locality_label_injective 3 1 3 1); [lia|lia|reflexivity].
Defined.
(** With a metro code of 10 two different pairs share a label. *)
Example locality_label_collision :
  Cleaner.locality_label 1 10 == Cleaner.locality_label 2 0.
Proof. reflexivity. Qed.
End DerivedMetrics.

(** ** The cleaner: sparse columns, imputation, coded columns *)

Section SparseColumns.
Open Scope Q_scope.

#[local] Existing Instance Qle_transitive.
#[local] Existing Instance Qle_total.
#[local] Existing Instance str_le_transitive.
#[local] Existing Instance str_le_total.

Lemma count_missing_dropna {A : Type} (cells : list (option A)) :
  (Cleaner.count_missing cells + length (CleanData.dropna cells) = length cells)%nat.
Proof.
  unfold Cleaner.count_missing, CleanData.dropna.
  induction cells as [|[x|] cells IH]; cbn in *; lia.
Qed.

Lemma count_missing_fillna {A : Type} (v : A) (cells : list (option A)) :
  Cleaner.count_missing (CleanData.fillna v cells) = O
  /\ length (CleanData.fillna v cells) = length cells.
Proof.
  unfold Cleaner.count_missing, CleanData.fillna. split.
  - induction cells as [|[x|] cells IH]; cbn in *; lia.
  - apply length_fmap.
Qed.

(** A column with rows, at most 30% of them missing, has a value. *)
Lemma dense_column_has_value {A : Type} (cells : list (option A)) :
  (0 < length cells)%nat ->
  Qltb Cleaner.missing_threshold (Cleaner.isnull_mean cells) = false ->
  CleanData.dropna cells <> [].
Proof.
  intros Hlen Hdense Hnil.
  pose proof (count_missing_dropna cells) as Hcount.
  rewrite Hnil in Hcount. cbn [length] in Hcount. rewrite Nat.add_0_r in Hcount.
  apply Qltb_ge in Hdense. unfold Cleaner.isnull_mean, Cleaner.missing_threshold in Hdense.
  rewrite Hcount in Hdense.
  assert (Hpos : 0 < inject_Z (Z.of_nat (length cells))).
  { change 0 with (inject_Z 0). rewrite <- Zlt_Qlt. lia. }
  assert (Hone : inject_Z (Z.of_nat (length cells)) / inject_Z (Z.of_nat (length cells)) == 1)
    by (field; lra).
  rewrite Hone in Hdense. lra.
Qed.

Lemma impute_dense (float64_eq_np_number : bool) (col : CleanData.Series) :
  (0 < Cleaner.series_length col)%nat ->
  Cleaner.too_sparse col = false ->
  Cleaner.series_cells_missing (CleanData.impute float64_eq_np_number col) = O
  /\ Cleaner.series_length (CleanData.impute float64_eq_np_number col)
     = Cleaner.series_length col.
Proof.
  unfold Cleaner.too_sparse.
  destruct col as [cells|cells|cells];
    cbn [Cleaner.series_length Cleaner.series_isnull_mean]; intros Hlen Hdense.
  - pose proof (dense_column_has_value cells Hlen Hdense) as Hne.
    destruct float64_eq_np_number; cbn [CleanData.impute CleanData.dtype_of
      CleanData.dtype_eq_np_number].
    + destruct (median_defined cells Hne) as [m Hm].
      unfold CleanData.fill_median. rewrite Hm.
      apply (count_missing_fillna m cells).
    + destruct (fill_mode_least Qeq_bool Qle Qeq_bool_refl) with (cells := cells)
        as (m & Hfill & _); [|assumption|].
      { intros x y Heq. apply Qeq_bool_iff in Heq. rewrite Heq. apply Qle_refl. }
      rewrite Hfill. apply (count_missing_fillna m cells).
  - destruct float64_eq_np_number; split; reflexivity.
  - pose proof (dense_column_has_value cells Hlen Hdense) as Hne.
    destruct (fill_mode_least String.eqb CleanData.str_le String.eqb_refl)
      with (cells := cells) as (m & Hfill & _); [|assumption|].
    { intros x y Heq. apply String.eqb_eq in Heq. subst.
      destruct (String.leb_total y y); assumption. }
    destruct float64_eq_np_number;
      cbn [CleanData.impute CleanData.dtype_of CleanData.dtype_eq_np_number];
      rewrite Hfill; apply (count_missing_fillna m cells).
Qed.

Lemma count_missing_le {A : Type} (cells : list (option A)) :
  (Cleaner.count_missing cells <= length cells)%nat.
Proof. pose proof (count_missing_dropna cells). lia. Qed.

Lemma count_missing_Some {A : Type} (cells : list A) :
  Cleaner.count_missing (Some <$> cells) = O.
Proof.
  unfold Cleaner.count_missing. induction cells as [|x cells IH]; cbn in *; lia.
Qed.

(** The share of missing cells exceeds 0.3 exactly when ten times their
    number exceeds three times the number of rows. *)
Lemma isnull_mean_above {A : Type} (cells : list (option A)) :
  Qltb Cleaner.missing_threshold (Cleaner.isnull_mean cells) = true
  <-> (3 * length cells < 10 * Cleaner.count_missing cells)%nat.
Proof.
  pose proof (count_missing_le cells) as Hle.
  rewrite Qltb_lt. unfold Cleaner.isnull_mean, Cleaner.missing_threshold.
  destruct (Nat.eq_dec (length cells) 0%nat) as [Hz|Hnz].
  - rewrite Hz in *. assert (Hm : Cleaner.count_missing cells = O) by lia.
    rewrite Hm. cbn. split; [intros H; vm_compute in H; discriminate|lia].
  - assert (Hpos : 0 < inject_Z (Z.of_nat (length cells))).
    { change 0 with (inject_Z 0). rewrite <- Zlt_Qlt. lia. }
    rewrite (Qlt_div_iff _ _ _ Hpos).
    unfold Qlt, Qmult, inject_Z. cbn [Qnum Qden]. lia.
Qed.

Lemma too_sparse_iff (col : CleanData.Series) :
  Cleaner.too_sparse col = true
  <-> (3 * Cleaner.series_length col < 10 * Cleaner.series_cells_missing col)%nat.
Proof.
  unfold Cleaner.too_sparse.
  destruct col as [cells|cells|cells];
    cbn [Cleaner.series_isnull_mean Cleaner.series_length
         Cleaner.series_cells_missing].
  - apply isnull_mean_above.
  - rewrite isnull_mean_above, count_missing_Some, length_fmap. reflexivity.
  - apply isnull_mean_above.
Qed.

Lemma drop_sparse_iff (frame : list (string * CleanData.Series))
    (name : string) (col : CleanData.Series) :
  (name, col) ∈ Cleaner.drop_sparse frame
  <-> (name, col) ∈ frame
      /\ forall c, (name, c) ∈ frame -> Cleaner.too_sparse c = false.
Proof.
  unfold Cleaner.drop_sparse, Cleaner.cols_to_drop.
  rewrite list_elem_of_filter. cbn [fst]. split.
  - intros [Hkeep Hin]. split; [exact Hin|].
    intros c Hc. destruct (Cleaner.too_sparse c) eqn:E; [|reflexivity].
    exfalso. apply Hkeep. apply list_elem_of_fmap. exists (name, c).
    split; [reflexivity|]. apply list_elem_of_filter. split; assumption.
  - intros [Hin Hdense]. split; [|exact Hin].
    intros Hdrop. apply list_elem_of_fmap in Hdrop as ([n c] & Hn & Hc).
    cbn [fst] in Hn. subst n.
    apply list_elem_of_filter in Hc as [Hsparse Hc]. cbn [snd] in Hsparse.
    rewrite (Hdense c Hc) in Hsparse. discriminate.
Qed.

(** X16.  A column counts as sparse exactly when more than 30% of its cells
    are missing, so a column at exactly 30% does not.  The drop followed by
    the imputation keeps, imputed, every column whose name is not that of a
    sparse column, and removes every sparse column.  Every column of the
    result comes from a column of the input with a missing share of at most
    0.3, has its length, and has no missing cell left if it has rows. *)
Theorem drop_and_impute_complete (float64_eq_np_number : bool)
    (frame : list (string * CleanData.Series)) :
  (forall col,
      (Cleaner.too_sparse col = true
       <-> (3 * Cleaner.series_length col
            < 10 * Cleaner.series_cells_missing col)%nat)
      /\ ((10 * Cleaner.series_cells_missing col
           = 3 * Cleaner.series_length col)%nat
          -> Cleaner.too_sparse col = false))
  /\ (forall name col0,
        (name, col0) ∈ frame ->
        (forall c, (name, c) ∈ frame -> Cleaner.too_sparse c = false) ->
        (name, CleanData.impute float64_eq_np_number col0)
          ∈ Cleaner.drop_and_impute float64_eq_np_number frame)
  /\ (forall name col0,
        (name, col0) ∈ frame -> Cleaner.too_sparse col0 = true ->
        forall c, (name, c) ∉ Cleaner.drop_and_impute float64_eq_np_number frame)
  /\ (forall name col,
        (name, col) ∈ Cleaner.drop_and_impute float64_eq_np_number frame ->
        (exists col0,
            (name, col0) ∈ frame
            /\ col = CleanData.impute float64_eq_np_number col0
            /\ Cleaner.series_isnull_mean col0 <= 0.3
            /\ Cleaner.series_length col = Cleaner.series_length col0)
        /\ ((0 < Cleaner.series_length col)%nat
            -> Cleaner.series_cells_missing col = O)).
Proof.
  split; [|split; [|split]].
  - intros col. split; [apply too_sparse_iff|].
    intros Heq. destruct (Cleaner.too_sparse col) eqn:E; [|reflexivity].
    apply too_sparse_iff in E. lia.
  - intros name col0 Hin Hdense. unfold Cleaner.drop_and_impute.
    apply list_elem_of_fmap. exists (name, col0). split; [reflexivity|].
    apply drop_sparse_iff. split; assumption.
  - intros name col0 Hin Hsparse c Hc. unfold Cleaner.drop_and_impute in Hc.
    apply list_elem_of_fmap in Hc as ([n c0] & Heq & Hc).
    cbn [fst snd] in Heq. injection Heq as -> _.
    apply drop_sparse_iff in Hc as [_ Hdense].
    rewrite (Hdense col0 Hin) in Hsparse. discriminate.
  - intros name col Hin. unfold Cleaner.drop_and_impute in Hin.
    apply list_elem_of_fmap in Hin as ([name0 col0] & Heq & Hin).
    cbn [fst snd] in Heq. injection Heq as -> ->.
    apply drop_sparse_iff in Hin as [Hin Hall].
    pose proof (Hall col0 Hin) as Hdense.
    assert (Hlen : Cleaner.series_length (CleanData.impute float64_eq_np_number col0)
                   = Cleaner.series_length col0).
    { destruct (Nat.eq_dec (Cleaner.series_length col0) 0%nat) as [Hz|Hnz].
      - destruct col0 as [[|c cells]|[|c cells]|[|c cells]]; try discriminate Hz;
          destruct float64_eq_np_number; reflexivity.
      - apply impute_dense; [lia|assumption]. }
    split.
    + exists col0. repeat split; try assumption.
      unfold Cleaner.too_sparse, Cleaner.missing_threshold in Hdense.
      apply Qltb_ge in Hdense. assumption.
    + intros Hpos. rewrite Hlen in Hpos. apply impute_dense; assumption.
Qed.
End SparseColumns.

Section SparseColumnsExamples.
Open Scope Q_scope.
Import Examples.

(** Three of ten ages are missing, exactly 30%: the column stays and its
    gaps get the median 40.  Four of ten medians are missing: the column
    goes. *)
Lemma drop_and_impute_complete_witness :
  Cleaner.too_sparse (CleanData.FloatSeries age_cells) = false
  /\ ("AGE1", CleanData.impute true (CleanData.FloatSeries age_cells))
       ∈ Cleaner.drop_and_impute true survey
  /\ CleanData.impute true (CleanData.FloatSeries age_cells)
     = CleanData.FloatSeries
         [ Some 21; Some 40; Some 35; Some 40; Some 40; Some 52; Some 67;
           Some 40; Some 30; Some 44 ]
  /\ (forall c, ("LMED", c) ∉ Cleaner.drop_and_impute true survey).
Proof.
  destruct (drop_and_impute_complete true survey) as (Hshare & Hkept & Hgone & _).
  assert (Hage : Cleaner.too_sparse (CleanData.FloatSeries age_cells) = false).
  { apply (Hshare (CleanData.FloatSeries age_cells)). reflexivity. }
  split; [exact Hage|]. split; [|split].
  - apply Hkept.
    + apply list_elem_of_here.
    + intros c Hc. unfold survey in Hc.
      apply elem_of_cons in Hc as [Hc|Hc]; [injection Hc as ->; exact Hage|].
      apply elem_of_cons in Hc as [Hc|Hc]; [discriminate Hc|inversion Hc].
  - vm_compute. reflexivity.
  - apply (Hgone "LMED" (CleanData.FloatSeries lmed_cells)).
    + apply list_elem_of_further, list_elem_of_here.
    + apply (Hshare (CleanData.FloatSeries lmed_cells)). cbn. lia.
Defined.
End SparseColumnsExamples.

Section CodedColumns.
Open Scope Q_scope.

#[local] Existing Instance Qle_transitive.
#[local] Existing Instance Qle_total.

Variable float_of_str : string -> option Q.

Lemma first_token_app (code label : string) :
  Forall (fun c => c <> " "%char) (String.list_ascii_of_string code) ->
  Cleaner.first_token (code +:+ " " +:+ label) = code.
Proof.
  induction code as [|c code IH]; cbn [String.list_ascii_of_string]; intros Hall.
  - reflexivity.
  - apply Forall_cons in Hall as [Hc Hall].
    change (String c code +:+ " " +:+ label) with (String c (code +:+ " " +:+ label)).
    cbn [Cleaner.first_token].
    destruct (Ascii.eqb_spec c " "%char) as [->|_]; [congruence|].
    rewrite (IH Hall). reflexivity.
Qed.

Lemma first_token_no_space (s : string) :
  Forall (fun c => c <> " "%char) (String.list_ascii_of_string (Cleaner.first_token s)).
Proof.
  induction s as [|c s IH]; cbn [Cleaner.first_token].
  - constructor.
  - destruct (Ascii.eqb_spec c " "%char) as [->|Hne]; [constructor|].
    cbn [String.list_ascii_of_string]. constructor; assumption.
Qed.

(** X17.  [extract_code] reads a "code label" text up to its first space:
    the label never matters, the result is the number [float] reads in the
    code, or NaN when it reads none, and a value that is no text is returned
    as it is.  Reading the extracted token again gives the same token. *)
Theorem extract_code_reads_leading_token (code label : string) :
  Forall (fun c => c <> " "%char) (String.list_ascii_of_string code) ->
  Cleaner.extract_code float_of_str (Py.VStr (code +:+ " " +:+ label))
    = Py.VFloat <$> float_of_str code
  /\ Cleaner.extract_code float_of_str (Py.VStr code) = Py.VFloat <$> float_of_str code
  /\ (forall s, Cleaner.first_token (Cleaner.first_token s) = Cleaner.first_token s)
  /\ (forall v, (forall s, v <> Py.VStr s) ->
                Cleaner.extract_code float_of_str v = Some v).
Proof.
  intros Hall.
  assert (Hself : forall s,
             Forall (fun c => c <> " "%char) (String.list_ascii_of_string s) ->
             Cleaner.first_token s = s).
  { intros s. induction s as [|c s IH]; cbn [String.list_ascii_of_string]; intros Hs.
    - reflexivity.
    - apply Forall_cons in Hs as [Hc Hs]. cbn [Cleaner.first_token].
      destruct (Ascii.eqb_spec c " "%char) as [->|_]; [congruence|].
      rewrite (IH Hs). reflexivity. }
  split; [|split; [|split]].
  - unfold Cleaner.extract_code. rewrite (first_token_app code label Hall).
    destruct (float_of_str code); reflexivity.
  - unfold Cleaner.extract_code. rewrite (Hself code Hall).
    destruct (float_of_str code); reflexivity.
  - intros s. apply Hself, first_token_no_space.
  - intros v Hv. destruct v; try reflexivity. exfalso. apply (Hv s). reflexivity.
Qed.

Lemma codes_fmap_lookup (cells : list string) (i : nat) :
  (Cleaner.code_of float_of_str <$> cells) !! i
  = Cleaner.code_of float_of_str <$> cells !! i.
Proof. apply list_lookup_fmap. Qed.

Lemma forallb_is_Some (codes : list (option Q)) :
  forallb (fun c : option Q => bool_decide (is_Some c)) codes = true
  <-> Forall is_Some codes.
Proof.
  rewrite forallb_forall, Forall_forall. split; intros H x Hx.
  - apply list_elem_of_In in Hx. apply H in Hx. apply bool_decide_eq_true in Hx.
    assumption.
  - apply bool_decide_eq_true. apply H. apply list_elem_of_In. assumption.
Qed.

(** X18.  Normalising an [FMT] column of text cells: when at least one
    cell starts with a number, every cell ends up a number, the cells that
    start with one keeping it; when the column has rows and no cell starts
    with a number, the fill value [mode()[0]] does not exist and the cleaner
    stops with [KeyError]; a column without rows is left empty. *)
Theorem normalize_fmt_cases (cells : list string) :
  ((exists s, s ∈ cells /\ is_Some (Cleaner.code_of float_of_str s)) ->
   exists out,
     Cleaner.normalize_fmt float_of_str cells = Some out
     /\ length out = length cells
     /\ Forall is_Some out
     /\ forall i s q, cells !! i = Some s ->
                      Cleaner.code_of float_of_str s = Some q ->
                      out !! i = Some (Some q))
  /\ (cells <> [] ->
      (forall s, s ∈ cells -> Cleaner.code_of float_of_str s = None) ->
      Cleaner.normalize_fmt float_of_str cells = None)
  /\ Cleaner.normalize_fmt float_of_str [] = Some [].
Proof.
  split; [|split].
  - intros (s0 & Hs0 & [q0 Hq0]). unfold Cleaner.normalize_fmt.
    set (codes := Cleaner.code_of float_of_str <$> cells).
    destruct (forallb _ codes) eqn:Hall.
    + exists codes. split; [reflexivity|]. split; [apply length_fmap|].
      split; [apply forallb_is_Some; assumption|].
      intros i s q Hi Hq. subst codes. rewrite codes_fmap_lookup, Hi. cbn.
      rewrite Hq. reflexivity.
    + assert (Hne : CleanData.dropna codes <> []).
      { intros Hnil. assert (Hin : q0 ∈ CleanData.dropna codes).
        { unfold CleanData.dropna. apply list_elem_of_omap.
          exists (Some q0). split; [|reflexivity].
          subst codes. apply list_elem_of_fmap. exists s0. split; [congruence|assumption]. }
        rewrite Hnil in Hin. inversion Hin. }
      destruct (mode_nonempty Qeq_bool Qle Qeq_bool_refl codes Hne) as [m Hm].
      destruct (CleanData.mode Qeq_bool Qle codes) as [|m0 rest]; [discriminate|].
      exists (CleanData.fillna m0 codes). split; [reflexivity|].
      split; [unfold CleanData.fillna, codes; rewrite !length_fmap; reflexivity|].
      split.
      * unfold CleanData.fillna. apply Forall_fmap, Forall_forall.
        intros [x|] _; cbn; eexists; reflexivity.
      * intros i s q Hi Hq. rewrite fillna_lookup. subst codes.
        rewrite codes_fmap_lookup, Hi. cbn. rewrite Hq. reflexivity.
  - intros Hne Hnone. unfold Cleaner.normalize_fmt.
    assert (Hcodes : Cleaner.code_of float_of_str <$> cells
                     = replicate (length cells) None).
    { clear Hne. induction cells as [|s cells IH]; [reflexivity|].
      cbn [fmap list_fmap length replicate].
      rewrite (Hnone s) by apply list_elem_of_here. f_equal.
      apply IH. intros s' Hs'. apply Hnone. apply list_elem_of_further. assumption. }
    rewrite Hcodes. destruct cells as [|s cells]; [congruence|].
    cbn [length replicate forallb]. cbn [bool_decide decide_rel].
    replace (bool_decide (is_Some (@None Q))) with false.
    2:{ symmetry. apply bool_decide_eq_false. intros [x Hx]. discriminate. }
    cbn [andb].
    assert (Hdrop : CleanData.dropna (None :: replicate (length cells) (@None Q)) = []).
    { unfold CleanData.dropna. cbn [omap list_omap id]. clear.
      induction (length cells); [reflexivity|]. cbn. assumption. }
    unfold CleanData.mode. rewrite Hdrop. reflexivity.
  - reflexivity.
Qed.
End CodedColumns.

Section CodedColumnsExamples.
Open Scope Q_scope.
Import Examples.

Lemma extract_code_reads_leading_token_witness :
  Cleaner.extract_code float_of_str (Py.VStr "2 Moderate") = Some (Py.VFloat 2).
Proof.
  refine (proj1 (extract_code_reads_leading_token float_of_str "2" "Moderate" _)).
  repeat constructor; discriminate.
Defined.

Lemma normalize_fmt_cases_witness :
  Cleaner.normalize_fmt float_of_str ["Adequate"; "Moderate"] = None
  /\ exists out, Cleaner.normalize_fmt float_of_str ["1 Adequate"; "n/a"; "2 Moderate"]
                 = Some out /\ Forall is_Some out.
Proof.
  pose proof (normalize_fmt_cases float_of_str ["Adequate"; "Moderate"])
    as (_ & Hfail & _).
  pose proof (normalize_fmt_cases float_of_str ["1 Adequate"; "n/a"; "2 Moderate"])
    as (Hok & _ & _).
  split.
  - apply Hfail; [discriminate|].
    intros s Hs.
    apply elem_of_cons in Hs as [-> | Hs]; [reflexivity|].
    apply elem_of_cons in Hs as [-> | Hs]; [reflexivity|]. inversion Hs.
  - destruct Hok as (out & Hout & _ & Hall & _).
    + exists "1 Adequate". split; [apply list_elem_of_here|]. eexists. reflexivity.
    + exists out. split; assumption.
Defined.
End CodedColumnsExamples.

(** ** The selector: what the correlation filter keeps *)

Section SelectorFacts.
Open Scope Q_scope.

Variable corr : string -> string -> option Q.

(** Picking cells of a list by position yields a sublist. *)
Lemma omap_positions_sublist {A : Type} (p : nat -> bool) (l pre : list A) :
  omap (fun j => if p j then (pre ++ l) !! j else None) (seq (length pre) (length l))
  `sublist_of` l.
Proof.
  revert pre. induction l as [|x l IH]; intros pre; [constructor|].
  cbn [length seq omap list_omap].
  assert (Hx : (pre ++ x :: l) !! length pre = Some x) by apply list_lookup_middle, eq_refl.
  specialize (IH (pre ++ [x])).
  rewrite <- app_assoc in IH. cbn [app] in IH.
  rewrite length_app in IH. cbn [length] in IH. rewrite Nat.add_1_r in IH.
  destruct (p (length pre)).
  - rewrite Hx. apply sublist_skip. exact IH.
  - apply sublist_cons. exact IH.
Qed.

Lemma to_drop_sublist (columns : list string) :
  RefineData.to_drop corr columns `sublist_of` columns.
Proof.
  unfold RefineData.to_drop.
  apply (omap_positions_sublist (RefineData.any_above corr columns) columns []).
Qed.

(** X20.  The correlation filter neither reorders nor invents columns: the
    dropped list and the final features are both sublists of the feature
    table, a table without repeated names is split between them, and when
    no pair of columns is above the threshold nothing is dropped.  Fed with
    the candidates present in the frame, the final features are a sublist of
    the candidate list, at most 17, all present in the frame and none among
    the columns dropped for missing values. *)
Theorem filter_partitions_table (columns : list string) :
  RefineData.to_drop corr columns `sublist_of` columns
  /\ RefineData.final_features corr columns `sublist_of` columns
  /\ (NoDup columns ->
      RefineData.final_features corr columns ++ RefineData.to_drop corr columns
      ≡ₚ columns)
  /\ ((forall a b, a ∈ columns -> b ∈ columns ->
         RefineData.gt_threshold (RefineData.corr_matrix corr a b) = false) ->
      RefineData.to_drop corr columns = []
      /\ RefineData.final_features corr columns = columns)
  /\ (forall df_columns drop_missing,
        let kept := RefineData.final_features corr
                      (RefineData.feature_columns df_columns drop_missing) in
        kept `sublist_of` RefineData.candidates
        /\ (length kept <= 17)%nat
        /\ forall c, c ∈ kept -> c ∈ df_columns /\ c ∉ drop_missing).
Proof.
  assert (Hfinal : forall cols, RefineData.final_features corr cols `sublist_of` cols).
  { intros cols. unfold RefineData.final_features. apply sublist_filter. }
  split; [apply to_drop_sublist|]. split; [apply Hfinal|]. split; [|split].
  - intros Hnd. apply NoDup_Permutation.
    + apply NoDup_app. split; [eapply sublist_NoDup; [exact Hnd|apply Hfinal]|].
      split; [|eapply sublist_NoDup; [exact Hnd|apply to_drop_sublist]].
      intros x Hx. unfold RefineData.final_features in Hx.
      apply list_elem_of_filter in Hx as [Hx _]. exact Hx.
    + exact Hnd.
    + intros x. rewrite elem_of_app. unfold RefineData.final_features.
      rewrite list_elem_of_filter. split.
      * intros [[_ Hx]|Hx]; [exact Hx|].
        eapply elem_of_sublist; [exact Hx|apply to_drop_sublist].
      * intros Hx. destruct (decide (x ∈ RefineData.to_drop corr columns)); auto.
  - intros Hlow.
    assert (Hnil : RefineData.to_drop corr columns = []).
    { apply elem_of_nil_inv. intros c Hc.
      apply to_drop_iff in Hc as (i & j & row & _ & Hi & Hj & Hgt).
      rewrite (Hlow row c) in Hgt; [discriminate| |].
      - eapply list_elem_of_lookup_2; eassumption.
      - eapply list_elem_of_lookup_2; eassumption. }
    split; [exact Hnil|]. unfold RefineData.final_features. rewrite Hnil.
    clear. induction columns as [|c cols IH]; [reflexivity|].
    rewrite filter_cons. destruct (decide (c ∉ [])) as [_|Hn].
    + f_equal. exact IH.
    + exfalso. apply Hn. apply not_elem_of_nil.
  - intros df_columns drop_missing kept.
    assert (Hsub : kept `sublist_of` RefineData.candidates).
    { subst kept. etransitivity; [apply Hfinal|].
      unfold RefineData.feature_columns.
      etransitivity; apply sublist_filter. }
    split; [exact Hsub|]. split.
    + apply sublist_length in Hsub. exact Hsub.
    + intros c Hc. subst kept.
      eapply elem_of_sublist in Hc; [|apply Hfinal].
      unfold RefineData.feature_columns in Hc.
      apply list_elem_of_filter in Hc as [Hnd Hc].
      apply list_elem_of_filter in Hc as [Hdf _]. split; assumption.
Qed.
(** X19.  Income heads the candidate list, so the correlation filter
    never removes it: whenever the frame has the column [ZINC2] and it is not
    dropped for missing values, it is among the final features, whatever the
    correlations are. *)
Theorem income_survives_filter (df_columns drop_missing : list string) :
  "ZINC2" ∈ df_columns -> "ZINC2" ∉ drop_missing ->
  "ZINC2" ∈ RefineData.final_features corr
              (RefineData.feature_columns df_columns drop_missing).
Proof.
  intros Hdf Hmiss.
  assert (Hhead : exists rest,
             RefineData.feature_columns df_columns drop_missing = "ZINC2" :: rest).
  { unfold RefineData.feature_columns, RefineData.candidates.
    rewrite filter_cons. destruct (decide ("ZINC2" ∈ df_columns)); [|contradiction].
    rewrite filter_cons. destruct (decide ("ZINC2" ∉ drop_missing)); [|contradiction].
    eexists. reflexivity. }
  destruct Hhead as [rest Hrest].
  assert (Hnd : NoDup (RefineData.feature_columns df_columns drop_missing)).
  { unfold RefineData.feature_columns. apply NoDup_filter, NoDup_filter.
    apply (bool_decide_unpack _). vm_compute. exact I. }
  unfold RefineData.final_features. apply list_elem_of_filter. split.
  - apply first_column_kept; [exact Hnd|]. rewrite Hrest. reflexivity.
  - rewrite Hrest. apply list_elem_of_here.
Qed.
End SelectorFacts.

Section SelectorExamples.
Open Scope Q_scope.
Import Examples.

Lemma filter_partitions_table_witness :
  RefineData.final_features households_corr households_columns
  ++ RefineData.to_drop households_corr households_columns
  ≡ₚ households_columns.
Proof.
  refine (proj1 (proj2 (proj2 (filter_partitions_table households_corr
                                 households_columns))) _).
  apply (bool_decide_unpack _). vm_compute. exact I.
Defined.

Lemma income_survives_filter_witness :
  "ZINC2" ∈ RefineData.final_features households_corr
              (RefineData.feature_columns households_columns []).
Proof.
  apply (income_survives_filter households_corr households_columns []).
  - apply list_elem_of_here.
  - apply not_elem_of_nil.
Defined.
End SelectorExamples.

(** ** The selector: negative placeholders and the median *)

Section NegativePlaceholders.
Open Scope Q_scope.

Lemma clean_negative_lookup (cells : list (option Q)) (i : nat) :
  Cleaner.clean_negative cells !! i
  = (fun c => match c with
              | Some q => if Qltb q 0 then None else Some q
              | None => None
              end) <$> cells !! i.
Proof. unfold Cleaner.clean_negative. apply list_lookup_fmap. Qed.

Lemma dropna_elem_of {A : Type} (cells : list (option A)) (x : A) :
  x ∈ CleanData.dropna cells <-> Some x ∈ cells.
Proof.
  unfold CleanData.dropna. rewrite list_elem_of_omap. split.
  - intros ([y|] & Hy & Heq); [|discriminate]. cbn in Heq. congruence.
  - intros H. exists (Some x). split; [assumption|reflexivity].
Qed.

Lemma foldr_Qmax_ge (l : list Q) (v : Q) : v ∈ l -> v <= foldr Qmax 0 l.
Proof.
  induction l as [|y l IH]; intros Hv.
  - inversion Hv.
  - cbn [foldr]. apply elem_of_cons in Hv as [-> | Hv].
    + apply Q.le_max_l.
    + eapply Qle_trans; [apply IH; assumption|apply Q.le_max_r].
Qed.

(** The median lies between any two bounds of the values. *)
Lemma median_between (cells : list (option Q)) (lo hi m : Q) :
  (forall v, v ∈ CleanData.dropna cells -> lo <= v <= hi) ->
  CleanData.median cells = Some m -> lo <= m <= hi.
Proof.
  intros Hbound. unfold CleanData.median.
  set (sorted := merge_sort Qle (CleanData.dropna cells)).
  assert (Hsorted : forall k v, sorted !! k = Some v -> lo <= v <= hi).
  { intros k v Hk. apply Hbound.
    rewrite <- (merge_sort_Permutation Qle (CleanData.dropna cells)).
    eapply list_elem_of_lookup_2. exact Hk. }
  destruct (Nat.eqb (length sorted) 0); [discriminate|].
  destruct (Nat.odd (length sorted)).
  - intros Hm. eapply Hsorted. exact Hm.
  - destruct (sorted !! (length sorted / 2 - 1)%nat) as [a|] eqn:Ha; [|discriminate].
    destruct (sorted !! (length sorted / 2)%nat) as [b|] eqn:Hb; [|discriminate].
    intros Hm. injection Hm as <-.
    apply Hsorted in Ha, Hb.
    assert (E : (a + b) / 2 == (a + b) * (1 # 2)) by (field).
    rewrite E. lra.
Qed.

(** X21.  Replacing the negative placeholders of a numeric column by
    missing cells keeps every non-negative cell, zero included, and turns
    every negative one into a missing cell; the median of what remains is
    non-negative, so that after the median imputation every cell of a column
    that has a non-negative value is present and non-negative. *)
Theorem negatives_then_median (cells : list (option Q)) :
  let cleaned := Cleaner.clean_negative cells in
  (forall i q, cells !! i = Some (Some q) -> 0 <= q -> cleaned !! i = Some (Some q))
  /\ (forall i q, cells !! i = Some (Some q) -> q < 0 -> cleaned !! i = Some None)
  /\ (forall q, q ∈ CleanData.dropna cleaned -> 0 <= q /\ Some q ∈ cells)
  /\ (CleanData.dropna cleaned <> [] ->
      exists m,
        CleanData.median cleaned = Some m /\ 0 <= m
        /\ CleanData.fill_median cleaned = CleanData.fillna m cleaned
        /\ Forall (fun c => exists q, c = Some q /\ 0 <= q)
                  (CleanData.fill_median cleaned)).
Proof.
  intros cleaned.
  assert (Hpos : forall q, q ∈ CleanData.dropna cleaned -> 0 <= q /\ Some q ∈ cells).
  { intros q Hq. apply dropna_elem_of in Hq.
    apply list_elem_of_lookup_1 in Hq as [i Hi].
    subst cleaned. rewrite clean_negative_lookup in Hi.
    destruct (cells !! i) as [[x|]|] eqn:Hc; cbn in Hi; try discriminate.
    destruct (Qltb x 0) eqn:E; [discriminate|]. injection Hi as ->.
    qbool. split; [assumption|]. eapply list_elem_of_lookup_2. exact Hc. }
  split; [|split; [|split; [exact Hpos|]]].
  - intros i q Hi Hq. subst cleaned. rewrite clean_negative_lookup, Hi. cbn.
    replace (Qltb q 0) with false; [reflexivity|]. symmetry. apply Qltb_ge. assumption.
  - intros i q Hi Hq. subst cleaned. rewrite clean_negative_lookup, Hi. cbn.
    replace (Qltb q 0) with true; [reflexivity|]. symmetry. apply Qltb_lt. assumption.
  - intros Hne. destruct (median_defined cleaned Hne) as [m Hm].
    assert (Hm0 : 0 <= m).
    { set (hi := foldr Qmax 0 (CleanData.dropna cleaned)).
      apply (median_between cleaned 0 hi m); [|assumption].
      intros v Hv. split; [apply Hpos; assumption|apply foldr_Qmax_ge; assumption]. }
    exists m. split; [assumption|]. split; [assumption|].
    unfold CleanData.fill_median. rewrite Hm. split; [reflexivity|].
    unfold CleanData.fillna. apply Forall_fmap, Forall_forall.
    intros [q|] Hc; cbn.
    + exists q. split; [reflexivity|]. apply Hpos. apply dropna_elem_of. assumption.
    + exists m. split; [reflexivity|assumption].
Qed.

Lemma negatives_then_median_witness :
  Cleaner.clean_negative [Some 3; Some (-6); Some 0; Some (-9)] !! 2%nat
  = Some (Some 0).
Proof.
  refine (proj1 (negatives_then_median [Some 3; Some (-6); Some 0; Some (-9)])
            2%nat 0 _ _).
  - reflexivity.
  - lra.
Defined.
End NegativePlaceholders.

(** ** The profile: noise count and policy texts *)

Section ProfileFacts.
Open Scope Q_scope.

(** X22.  The number of DBSCAN clusters that [run_analysis] prints is the
    number of distinct labels other than the noise label -1; it is never
    negative. *)
Theorem n_dbscan_clusters_counts_labels (dbscan_labels : list Z) :
  Profile.n_dbscan_clusters dbscan_labels
  = Z.of_nat (size (list_to_set (filter (fun l => l <> (-1)%Z) dbscan_labels) : gset Z))
  /\ (0 <= Profile.n_dbscan_clusters dbscan_labels)%Z.
Proof.
  assert (Heq : Profile.n_dbscan_clusters dbscan_labels
    = Z.of_nat (size (list_to_set (filter (fun l => l <> (-1)%Z) dbscan_labels) : gset Z))).
  { unfold Profile.n_dbscan_clusters.
    set (others := list_to_set (filter (fun l => l <> (-1)%Z) dbscan_labels) : gset Z).
    destruct (bool_decide_reflect ((-1)%Z ∈ dbscan_labels)) as [Hin|Hout].
    - assert (Hsplit : (list_to_set dbscan_labels : gset Z) = {[(-1)%Z]} ∪ others).
      { apply set_eq. intros x. subst others.
        rewrite elem_of_union, !elem_of_list_to_set, elem_of_singleton,
          list_elem_of_filter.
        split.
        - intros Hx. destruct (decide (x = (-1)%Z)); auto.
        - intros [-> | [_ Hx]]; assumption. }
      rewrite Hsplit, size_union, size_singleton; [lia|].
      intros x Hx Hx'. apply elem_of_singleton in Hx. subst x. subst others.
      apply elem_of_list_to_set, list_elem_of_filter in Hx' as [Hne _].
      congruence.
    - assert (Hsame : (list_to_set dbscan_labels : gset Z) = others).
      { apply set_eq. intros x. subst others.
        rewrite !elem_of_list_to_set, list_elem_of_filter.
        split; [|intros [_ Hx]; assumption].
        intros Hx. split; [|assumption]. intros ->. contradiction. }
      rewrite Hsame. lia. }
  split; [exact Heq|]. rewrite Heq. lia.
Qed.

(** X23.  The policy sentence of a cluster profile is cut at the
    thresholds of the request path: "Severely Burdened" goes exactly with
    status code 3, "Affordable" exactly with a ratio of at most 0.3, which
    is where the view answers "Affordable", and "Moderately Burdened" with
    the ratios above 0.3 up to 0.5; the income sentence is "Low" below
    30000, "High" above 80000 and "Middle" in between. *)
Theorem profile_texts_follow_thresholds (zinc2 r : Q) :
  (Profile.burden_text r
     = "Severely Burdened. POLICY: Rent subsidies, emergency assistance."
   <-> App.status_of r = 3)
  /\ (Profile.burden_text r
        = "Affordable. POLICY: Market monitoring, maintain stability."
      <-> r <= 0.3)
  /\ (Profile.burden_text r
        = "Moderately Burdened. POLICY: Affordable housing development, zoning incentives."
      <-> 0.3 < r <= 0.5)
  /\ (Profile.income_text zinc2 = "Low Income. " <-> zinc2 < 30000)
  /\ (Profile.income_text zinc2 = "High Income. " <-> 80000 < zinc2)
  /\ (Profile.income_text zinc2 = "Middle Income. " <-> 30000 <= zinc2 <= 80000).
Proof.
  unfold Profile.burden_text, Profile.income_text, App.status_of.
  destruct (Qltb 0.5 r) eqn:E1, (Qltb 0.3 r) eqn:E2, (Qltb r 0.3) eqn:E3,
    (Qleb r 0.5) eqn:E4, (Qltb zinc2 30000) eqn:E5, (Qltb 80000 zinc2) eqn:E6;
    qbool; try lra;
    repeat split; intros; try reflexivity; try lra; congruence.
Qed.
End ProfileFacts.

Section FurtherExamples.
Open Scope Q_scope.
Import Examples.

Lemma health_ignores_scaler_witness :
  (Service.health {| Service.df := Some [∅]; Service.model := Some model4;
                     Service.scaler := None |}).1 = "healthy"
  /\ Service.predict float_of_str str_of_float
       {| Service.df := Some [∅]; Service.model := Some model4;
          Service.scaler := None |}
       (request [("income", Py.VInt 45000)]) = App.ModelNotLoaded.
Proof.
  refine (proj1 (proj2 (health_ignores_scaler float_of_str str_of_float
            {| Service.df := Some [∅]; Service.model := Some model4;
               Service.scaler := None |}
            (request [("income", Py.VInt 45000)]))) _ _ _).
  - eexists. reflexivity.
  - eexists. reflexivity.
  - reflexivity.
Defined.

Lemma profile_texts_follow_thresholds_witness :
  Profile.burden_text 0.3
  = "Affordable. POLICY: Market monitoring, maintain stability.".
Proof.
  apply (proj2 (proj1 (proj2 (profile_texts_follow_thresholds 52000 0.3)))).
  lra.
Defined.
End FurtherExamples.
